(** * Session lifecycle of claude-discord-bridge-server

    A shallow embedding of [src/session_manager.py] (the channel/session
    registry and its [sessions.json] file), [RecoveryStrategy] of
    [src/auto_recovery.py], [TmuxManager] of [src/tmux_manager.py] and the
    recovery step of [AutoRecoverySystem].

    Timestamps ([created_at], [last_checked], ...) and log calls are left out:
    no branch of the modelled code reads them. *)

From Stdlib Require Import ZArith Lia.
From stdpp Require Import base gmap strings list.

Open Scope string_scope.

(* ================================================================= *)
(** ** [src/session_manager.py] *)
(* ================================================================= *)

Module SessionManager.

(** [@dataclass SessionInfo]; [created_at] and [last_health_check] are
    timestamps and are not modelled. *)
Record SessionInfo := mkInfo {
  session_id : nat;
  channel_id : string;
  status : string
}.

#[global] Instance SessionInfo_eq_dec : EqDecision SessionInfo.
Proof. solve_decision. Defined.

(** [self.sessions_cache : {session_id: SessionInfo}] and
    [self.channel_map : {channel_id: session_id}]. *)
Record Registry := mkReg {
  sessions_cache : gmap nat SessionInfo;
  channel_map : gmap string nat
}.

(** The registry together with the content of [sessions.json].  The file
    maps [str(session_id)] to a channel id; its keys are kept as the
    numbers they print ([str]/[int] round-trip on non-negative ints, so
    [session_str.isdigit()] always holds for them). *)
Record Sys := mkSys {
  reg : Registry;
  disk : gmap nat string
}.

Definition empty_sys : Sys := mkSys (mkReg ∅ ∅) ∅.

(** Python exceptions reaching the handlers of [add_session]. *)
Inductive exn :=
| SessionManagerError (msg : string)
| OtherError (msg : string).

Inductive result (A : Type) :=
| Ok (a : A)
| Raise (e : exn).
Arguments Ok {A} a.
Arguments Raise {A} e.

(** Whether [settings.save_sessions] (open/json.dump of [sessions.json])
    succeeds or raises. *)
Inductive disk_env := DiskOk | DiskFail.

(** The dict comprehension of [_save_sessions]:
    [{str(info.session_id): info.channel_id for info in
      self.sessions_cache.values() if info.status == "active"}]
    (later values overwrite earlier ones, as in a Python dict). *)
Definition sessions_dict (cache : gmap nat SessionInfo) : gmap nat string :=
  foldl (fun d info => <[session_id info := channel_id info]> d) ∅
        (filter (fun info => status info = "active")
                (map snd (map_to_list cache))).

(** [_save_sessions]: every failure of the write is re-raised as
    [SessionManagerError]. *)
Definition save_sessions (env : disk_env) (s : Sys) : Sys * result unit :=
  match env with
  | DiskOk => (mkSys (reg s) (sessions_dict (sessions_cache (reg s))), Ok tt)
  | DiskFail => (s, Raise (SessionManagerError "Session save failed"))
  end.

(** [_load_sessions] from the file content: both maps are cleared and
    rebuilt, every entry with status ["active"]. *)
Definition load_entry (r : Registry) (kv : nat * string) : Registry :=
  mkReg (<[kv.1 := mkInfo kv.1 kv.2 "active"]> (sessions_cache r))
        (<[kv.2 := kv.1]> (channel_map r)).

Definition load_sessions (d : gmap nat string) : Registry :=
  foldl load_entry (mkReg ∅ ∅) (map_to_list d).

(** [existing_session_ids = list(self.sessions_cache.keys())];
    [1 if not existing_session_ids else max(existing_session_ids) + 1]. *)
Definition next_session_id (cache : gmap nat SessionInfo) : nat :=
  let existing_session_ids := (map_to_list cache).*1 in
  match existing_session_ids with
  | [] => 1
  | _ => list_max existing_session_ids + 1
  end.

(** [add_session(channel_id)].  The [try] body raises [SessionManagerError]
    for a mapped channel and whatever [_save_sessions] raises; the handler
    [except SessionManagerError: raise] comes before the rollback handler
    [except Exception]. *)
Definition add_session (channel : string) (env : disk_env) (s : Sys)
    : Sys * result nat :=
  match channel_map (reg s) !! channel with
  | Some _ => (s, Raise (SessionManagerError "Channel is already mapped"))
  | None =>
      let backup := reg s in
      let new_session_id := next_session_id (sessions_cache (reg s)) in
      let info := mkInfo new_session_id channel "active" in
      let s1 := mkSys (mkReg (<[new_session_id := info]> (sessions_cache (reg s)))
                             (<[channel := new_session_id]> (channel_map (reg s))))
                      (disk s) in
      match save_sessions env s1 with
      | (s2, Ok _) => (s2, Ok new_session_id)
      | (s2, Raise (SessionManagerError m)) => (s2, Raise (SessionManagerError m))
      | (s2, Raise (OtherError m)) =>
          (mkSys backup (disk s2), Raise (SessionManagerError "Session creation failed"))
      end
  end.

(** [remove_session(session_id)]: [except Exception] rolls back. *)
Definition remove_session (sid : nat) (env : disk_env) (s : Sys) : Sys * bool :=
  match sessions_cache (reg s) !! sid with
  | None => (s, false)
  | Some info =>
      let backup := reg s in
      let cmap :=
        match channel_map (reg s) !! channel_id info with
        | Some _ => delete (channel_id info) (channel_map (reg s))
        | None => channel_map (reg s)
        end in
      let s1 := mkSys (mkReg (delete sid (sessions_cache (reg s))) cmap) (disk s) in
      match save_sessions env s1 with
      | (s2, Ok _) => (s2, true)
      | (s2, Raise _) => (mkSys backup (disk s2), false)
      end
  end.

(** [update_session_health(session_id, is_healthy)]: in-place update of the
    cached [SessionInfo]; nothing is written to the file. *)
Definition update_session_health (sid : nat) (is_healthy : bool) (s : Sys) : Sys :=
  mkSys (mkReg (alter (fun i => mkInfo (session_id i) (channel_id i)
                                       (if is_healthy then "active" else "error"))
                      sid (sessions_cache (reg s)))
               (channel_map (reg s)))
        (disk s).

(** [is_session_active(session_id)]. *)
Definition is_session_active (sid : nat) (r : Registry) : bool :=
  match sessions_cache r !! sid with
  | Some i => bool_decide (status i = "active")
  | None => false
  end.

(** [get_session_by_channel(channel_id)]: [if session_id and session_id in
    self.sessions_cache] tests the id's truth value, so id [0] counts as
    missing. *)
Definition get_session_by_channel (channel : string) (r : Registry) : option nat :=
  match channel_map r !! channel with
  | Some session_id =>
      if Nat.eqb session_id 0 then None else
      match sessions_cache r !! session_id with
      | Some session_info =>
          if bool_decide (status session_info = "active") then Some session_id else None
      | None => None
      end
  | None => None
  end.

(** [get_channel_by_session(session_id)]. *)
Definition get_channel_by_session (sid : nat) (r : Registry) : option string :=
  match sessions_cache r !! sid with
  | Some session_info =>
      if bool_decide (status session_info = "active") then Some (channel_id session_info)
      else None
  | None => None
  end.

End SessionManager.

(* ================================================================= *)
(** ** [RecoveryStrategy] of [src/auto_recovery.py] *)
(* ================================================================= *)

Module RecoveryStrategy.

Definition MAX_RETRY_ATTEMPTS : nat := 3.
Definition BASE_BACKOFF_SECONDS : Z := 1.
Definition MAX_BACKOFF_SECONDS : Z := 60.

(** [get_backoff_time(attempt)] *)
Definition get_backoff_time (attempt : Z) : Z :=
  let backoff := (BASE_BACKOFF_SECONDS * 2 ^ (attempt - 1))%Z in
  Z.min backoff MAX_BACKOFF_SECONDS.

End RecoveryStrategy.

(* ================================================================= *)
(** ** [TmuxManager] of [src/tmux_manager.py] and [AutoRecoverySystem] *)
(* ================================================================= *)

Module Recovery.

(** tmux invocations made through [subprocess.run].  A session is named
    [claude-session-<id>], an injective function of the id, so commands
    carry the id; [new-session] carries the working directory and the
    options of its [cd "<work_dir>" && claude <options>] command. *)
Inductive tcmd :=
| HasSession (sid : nat)
| NewSession (sid : nat) (work_dir options : string)
| KillSession (sid : nat).

(** What [subprocess.run] observes: a return code, or no [tmux] binary
    (raising [FileNotFoundError]). *)
Inductive run_result :=
| RC (code : nat)
| NoBinary.

(** Exceptions raised inside the modelled methods. *)
Inductive exc :=
| FileNotFoundError
| CalledProcessError
| KeyError.

Definition exc_str (e : exc) : string :=
  match e with
  | FileNotFoundError => "No such file or directory: 'tmux'"
  | CalledProcessError => "Command returned non-zero exit status"
  | KeyError => "KeyError"
  end.

(** A value of [TmuxManager.sessions_cache] (a dict); the fields the code
    reads or writes besides timestamps and [session_name]. *)
Record TEntry := mkEntry {
  t_status : string;
  t_work_dir : option string;
  t_options : option string;
  t_recovery_count : option nat;
  t_recovery_attempt : option nat;
  t_recovery_attempts : option nat
}.

Definition set_status (st : string) (e : TEntry) : TEntry :=
  mkEntry st (t_work_dir e) (t_options e) (t_recovery_count e)
          (t_recovery_attempt e) (t_recovery_attempts e).

(** [@dataclass RecoveryAttempt] without [timestamp] and
    [recovery_duration]. *)
Record RecoveryAttempt := mkAttempt {
  ra_session_id : nat;
  ra_attempt_number : nat;
  ra_success : bool;
  ra_error_message : option string
}.

(** Observable actions, most recent first in the trace. *)
Inductive event :=
| EvTmux (c : tcmd)
| EvCreate (sid : nat)                  (* a call of create_claude_session *)
| EvSleep (secs : Z)
| EvNotifySuccess (sid : nat)
| EvNotifyFailure (sid : nat) (err : option string)
| EvSaveHistory.

(** State threaded through the methods: the [TmuxManager] cache, the tmux
    server (of abstract type [W]), the trace, the [AutoRecoverySystem]
    fields [recovery_history] and [recovery_counts], and the
    [SessionManager] registry. *)
Record St (W : Type) := mkSt {
  tcache : gmap nat TEntry;
  mux : W;
  trace : list event;
  history : list RecoveryAttempt;
  counts : gmap nat nat;
  registry : SessionManager.Registry
}.
Arguments mkSt {W}.
Arguments tcache {W}.
Arguments mux {W}.
Arguments trace {W}.
Arguments history {W}.
Arguments counts {W}.
Arguments registry {W}.

Inductive outcome (A : Type) :=
| Ret (a : A)
| Exc (e : exc).
Arguments Ret {A} a.
Arguments Exc {A} e.

(** State and exception monad. *)
Definition M (W : Type) (A : Type) : Type := St W -> outcome A * St W.

#[global] Instance M_ret W : MRet (M W) := fun A a s => (Ret a, s).
#[global] Instance M_bind W : MBind (M W) := fun A B f m s =>
  match m s with
  | (Ret a, s') => f a s'
  | (Exc e, s') => (Exc e, s')
  end.

Section Methods.
Context {W : Type}.
(** The tmux server: each invocation answers and may change it. *)
Variable tmux : W -> tcmd -> run_result * W.

Definition raise {A} (e : exc) : M W A := fun s => (Exc e, s).

Definition try_catch {A} (m : M W A) (h : exc -> M W A) : M W A := fun s =>
  match m s with
  | (Exc e, s') => h e s'
  | r => r
  end.

Definition get_state : M W (St W) := fun s => (Ret s, s).

Definition set_tcache (c : gmap nat TEntry) : M W unit := fun s =>
  (Ret tt, mkSt c (mux s) (trace s) (history s) (counts s) (registry s)).

Definition modify_tcache (f : gmap nat TEntry -> gmap nat TEntry) : M W unit :=
  s ← get_state; set_tcache (f (tcache s)).

Definition emit (ev : event) : M W unit := fun s =>
  (Ret tt, mkSt (tcache s) (mux s) (ev :: trace s) (history s) (counts s) (registry s)).

Definition set_counts (c : gmap nat nat) : M W unit := fun s =>
  (Ret tt, mkSt (tcache s) (mux s) (trace s) (history s) c (registry s)).

Definition append_history (a : RecoveryAttempt) : M W unit := fun s =>
  (Ret tt, mkSt (tcache s) (mux s) (trace s) (history s ++ [a]) (counts s) (registry s)).

(** [subprocess.run([...], check=check)]. *)
Definition run_tmux (check : bool) (c : tcmd) : M W nat := fun s =>
  let '(r, w') := tmux (mux s) c in
  let s' := mkSt (tcache s) w' (EvTmux c :: trace s) (history s) (counts s) (registry s) in
  match r with
  | NoBinary => (Exc FileNotFoundError, s')
  | RC n => if check && negb (Nat.eqb n 0) then (Exc CalledProcessError, s') else (Ret n, s')
  end.

Definition DEFAULT_CLAUDE_OPTIONS : string := "--dangerously-skip-permissions".

(** [TmuxManager.is_claude_session_exists] *)
Definition is_claude_session_exists (sid : nat) : M W bool :=
  try_catch
    (rc ← run_tmux false (HasSession sid);
     let exists_ := Nat.eqb rc 0 in   (* [exists] *)
     modify_tcache (fun c => if exists_ then c else alter (set_status "stopped") sid c);;
     mret exists_)
    (fun e => match e with FileNotFoundError => mret false | _ => raise e end).

(** [TmuxManager.create_claude_session]; the call itself is recorded. *)
Definition create_claude_session (sid : nat) (work_dir : string) (options : option string)
    : M W bool :=
  emit (EvCreate sid);;
  ex ← is_claude_session_exists sid;
  if (ex : bool) then mret true else
  let claude_options := default DEFAULT_CLAUDE_OPTIONS options in
  try_catch
    (_ ← run_tmux true (NewSession sid work_dir claude_options);
     modify_tcache (insert sid (mkEntry "active" (Some work_dir) (Some claude_options)
                                        None None None));;
     mret true)
    (fun e => match e with CalledProcessError => mret false | _ => raise e end).

(** [TmuxManager.kill_claude_session] *)
Definition kill_claude_session (sid : nat) : M W bool :=
  ex ← is_claude_session_exists sid;
  if negb ex then mret true else
  try_catch
    (_ ← run_tmux true (KillSession sid);
     modify_tcache (alter (set_status "stopped") sid);;
     mret true)
    (fun e => match e with CalledProcessError => mret false | _ => raise e end).

(** [TmuxManager.check_session_health] *)
Definition check_session_health (sid : nat) : M W bool :=
  try_catch
    (h ← is_claude_session_exists sid;
     modify_tcache (alter (set_status (if (h : bool) then "active" else "error")) sid);;
     mret h)
    (fun _ => mret false).

(** One iteration of the retry loop of [TmuxManager.recover_session]
    (the body of its [try]): [Some b] is a [return b], [None] falls
    through to the next iteration. *)
Definition recover_attempt (sid attempt : nat) : M W (option bool) :=
  s ← get_state;
  match tcache s !! sid with
  | None => mret (Some false)
  | Some session_info =>
      let work_dir := default "/workspaces/002--claude-test" (t_work_dir session_info) in
      let options := default DEFAULT_CLAUDE_OPTIONS (t_options session_info) in
      success ← create_claude_session sid work_dir (Some options);
      if (success : bool) then
        h ← check_session_health sid;
        if (h : bool) then
          s' ← get_state;
          match tcache s' !! sid with
          | None => raise KeyError
          | Some e =>
              set_tcache (<[sid := mkEntry "recovered" (t_work_dir e) (t_options e)
                                   (Some (default 0 (t_recovery_count e) + 1))
                                   (Some attempt) (t_recovery_attempts e)]> (tcache s'));;
              mret (Some true)
          end
        else mret None
      else mret None
  end.

(** [for attempt in range(1, max_retries + 1)]: [fuel] iterations are
    left, starting at [attempt]. *)
Fixpoint recover_loop (sid max_retries attempt fuel : nat) : M W (option bool) :=
  match fuel with
  | 0 => mret None
  | S fuel' =>
      r ← try_catch (recover_attempt sid attempt) (fun _ => mret None);
      match r with
      | Some b => mret (Some b)
      | None =>
          (if Nat.ltb attempt max_retries then emit (EvSleep 2) else mret tt);;
          recover_loop sid max_retries (S attempt) fuel'
      end
  end.

(** [TmuxManager.recover_session(session_id, max_retries)] *)
Definition recover_session (sid max_retries : nat) : M W bool :=
  try_catch (kill_claude_session sid;; mret tt) (fun _ => mret tt);;
  r ← recover_loop sid max_retries 1 max_retries;
  match r with
  | Some b => mret b
  | None =>
      modify_tcache (alter (fun e => mkEntry "recovery_failed" (t_work_dir e) (t_options e)
                                       (t_recovery_count e) (t_recovery_attempt e)
                                       (Some max_retries)) sid);;
      mret false
  end.

(** [AutoRecoverySystem]: [settings.get_claude_work_dir()] and
    [settings.get_claude_options()] as read from the configuration. *)
Variable claude_work_dir claude_options : string.

(** [AutoRecoverySystem.check_session_health] *)
Definition ar_check_session_health (sid : nat) : M W bool :=
  try_catch
    (ex ← is_claude_session_exists sid;
     if negb ex then mret false else
     s ← get_state;
     if negb (SessionManager.is_session_active sid (registry s)) then mret false
     else mret true)
    (fun _ => mret false).

(** [_notify_recovery_success] and [_notify_recovery_failure]: both catch
    every error of the notification they send. *)
Definition notify_recovery_success (sid : nat) : M W unit := emit (EvNotifySuccess sid).
Definition notify_recovery_failure (sid : nat) (err : option string) : M W unit :=
  emit (EvNotifyFailure sid err).

(** The [try] block of [AutoRecoverySystem.recover_session], with its
    [except Exception as e: error_message = str(e)]; the result is
    [(success, error_message)]. *)
Definition ar_recover_body (sid : nat) : M W (bool * option string) :=
  try_catch
    (ex ← is_claude_session_exists sid;
     (if (ex : bool) then kill_claude_session sid;; emit (EvSleep 1) else mret tt);;
     created ← create_claude_session sid claude_work_dir (Some claude_options);
     if (created : bool) then
       emit (EvSleep 2);;
       h ← ar_check_session_health sid;
       if (h : bool) then
         s ← get_state;
         set_counts (<[sid := 0]> (counts s));;
         mret (true, None)
       else mret (false, Some "Health check failed after recovery")
     else mret (false, Some "Failed to create new tmux session"))
    (fun e => mret (false, Some (exc_str e))).

(** [async AutoRecoverySystem.recover_session(session_id)]; awaited sleeps
    are trace events, [_save_recovery_history] catches its own errors. *)
Definition ar_recover_session (sid : nat) : M W bool :=
  s ← get_state;
  let attempt_count := default 0 (counts s !! sid) + 1 in
  if Nat.ltb RecoveryStrategy.MAX_RETRY_ATTEMPTS attempt_count then
    notify_recovery_failure sid (Some "Max attempts exceeded");;
    mret false
  else
  (if Nat.ltb 1 attempt_count
   then emit (EvSleep (RecoveryStrategy.get_backoff_time (Z.of_nat attempt_count)))
   else mret tt);;
  '(success, error_message) ← ar_recover_body sid;
  append_history (mkAttempt sid attempt_count success error_message);;
  emit EvSaveHistory;;
  (if (success : bool) then notify_recovery_success sid
   else
     s' ← get_state;
     set_counts (<[sid := attempt_count]> (counts s'));;
     if Nat.leb RecoveryStrategy.MAX_RETRY_ATTEMPTS attempt_count
     then notify_recovery_failure sid error_message
     else mret tt);;
  mret success.

End Methods.

End Recovery.

(** [AutoRecoverySystem._save_recovery_history] and
    [_load_recovery_history]: the JSON file as the list of records it holds
    ([None] when [logs/recovery_history.json] does not exist). *)
Module RecoveryLog.
Import Recovery.

Definition RECOVERY_LOG_MAX_ENTRIES : nat := 1000.

(** Python's [xs[-n:]] for [n > 0]. *)
Definition py_last {A} (n : nat) (xs : list A) : list A := drop (length xs - n) xs.

(** What [_save_recovery_history] writes for [self.recovery_history]. *)
Definition save_recovery_history (recovery_history : list RecoveryAttempt)
    : list RecoveryAttempt :=
  py_last RECOVERY_LOG_MAX_ENTRIES recovery_history.

(** [self.recovery_history] after [_load_recovery_history] in [__init__],
    where it starts as [[]]. *)
Definition load_recovery_history (file : option (list RecoveryAttempt))
    : list RecoveryAttempt :=
  match file with
  | Some data => py_last RECOVERY_LOG_MAX_ENTRIES data
  | None => []
  end.

End RecoveryLog.


(* ================================================================= *)
(** ** Harness: call sequences, invariants and fixtures *)
(* ================================================================= *)

Module RegistryHarness.
Import SessionManager.

(** A registry call as issued by a caller, with the outcome of its write. *)
Inductive reg_op :=
| OpAdd (channel : string) (env : disk_env)
| OpRemove (sid : nat) (env : disk_env).

Definition apply_op (s : Sys) (op : reg_op) : Sys :=
  match op with
  | OpAdd c env => fst (add_session c env s)
  | OpRemove sid env => fst (remove_session sid env s)
  end.

Definition run_ops (ops : list reg_op) (s : Sys) : Sys := foldl apply_op s ops.

(** The two maps describe the same relation, and every [SessionInfo] is
    stored under its own [session_id]. *)
Definition coherent (r : Registry) : Prop :=
  (forall k i, sessions_cache r !! k = Some i ->
     session_id i = k /\ channel_map r !! channel_id i = Some k) /\
  (forall c k, channel_map r !! c = Some k ->
     exists i, sessions_cache r !! k = Some i /\ channel_id i = c).

(** Registry with ids {1,2,3}, built by three adds from the empty one. *)
Definition registry_123 : Sys :=
  run_ops [OpAdd "chan-A" DiskOk; OpAdd "chan-B" DiskOk; OpAdd "chan-C" DiskOk] empty_sys.

End RegistryHarness.

Module RecoveryHarness.
Import Recovery.

Definition is_create (ev : event) : bool :=
  match ev with EvCreate _ => true | _ => false end.

Definition is_failure_notice (ev : event) : bool :=
  match ev with EvNotifyFailure _ _ => true | _ => false end.

(** Number of [create_claude_session] calls in a trace. *)
Definition ncreates (tr : list event) : nat := length (List.filter is_create tr).

(** Number of failure notifications in a trace. *)
Definition nfailures (tr : list event) : nat :=
  length (List.filter is_failure_notice tr).

(** No cached tmux entry has status ["recovery_failed"]. *)
Definition no_recovery_failed (c : gmap nat TEntry) : Prop :=
  forall k e, c !! k = Some e -> t_status e <> "recovery_failed".

(** What a step making between [lo] and [hi] create calls, and touching
    neither the registry, the history nor the notifications, may do. *)
Record frame {W} (lo hi : nat) (s s' : St W) : Prop := {
  fr_lo : ncreates (trace s) + lo <= ncreates (trace s');
  fr_hi : ncreates (trace s') <= ncreates (trace s) + hi;
  fr_keys : forall j, is_Some (tcache s !! j) -> is_Some (tcache s' !! j);
  fr_registry : registry s' = registry s;
  fr_history : history s' = history s;
  fr_failures : nfailures (trace s') = nfailures (trace s);
  fr_norf : no_recovery_failed (tcache s) -> no_recovery_failed (tcache s')
}.

Definition frm {W A} (lo hi : nat) (m : M W A) : Prop :=
  forall s r s', m s = (r, s') -> frame lo hi s s'.

(** A step never adds an entry to the tmux cache. *)
Definition keeps_absent {W A} (m : M W A) : Prop :=
  forall s r s' j, m s = (r, s') -> tcache s !! j = None -> tcache s' !! j = None.

(** A tmux server as a list of live session ids: [has-session] and
    [kill-session] succeed on a live id, [new-session] on an absent one. *)
Definition list_mux (w : list nat) (c : tcmd) : run_result * list nat :=
  match c with
  | HasSession sid => (if existsb (Nat.eqb sid) w then RC 0 else RC 1, w)
  | NewSession sid _ _ => if existsb (Nat.eqb sid) w then (RC 1, w) else (RC 0, sid :: w)
  | KillSession sid =>
      if existsb (Nat.eqb sid) w then (RC 0, filter (fun x => x <> sid) w) else (RC 1, w)
  end.

(** A host without a [tmux] binary. *)
Definition no_tmux (w : unit) (c : tcmd) : run_result * unit := (NoBinary, w).

(** Session 2, mapped to channel ["chan-2"], known to both caches. *)
Definition fixture_2 : St unit :=
  mkSt {[2 := mkEntry "active" None None None None None]} tt [] [] ∅
       (SessionManager.mkReg {[2 := SessionManager.mkInfo 2 "chan-2" "active"]}
                             {["chan-2" := 2]}).

(** A host running a live [claude-session-2] that the cache does not know. *)
Definition fixture_live_2 : St (list nat) :=
  mkSt ∅ [2] [] [] ∅ (SessionManager.mkReg ∅ ∅).

(** The state after one [AutoRecoverySystem.recover_session(2)] call on a
    host without [tmux]. *)
Definition ar_run (s : St unit) : St unit :=
  snd (ar_recover_session no_tmux "/workspaces/002--claude-test" DEFAULT_CLAUDE_OPTIONS 2 s).

(** Three consecutive [AutoRecoverySystem.recover_session(2)] calls. *)
Definition three_recoveries {W} (tmux : W -> tcmd -> run_result * W)
    (wd opts : string) (sid : nat) : M W (bool * bool * bool) :=
  r1 ← ar_recover_session tmux wd opts sid;
  r2 ← ar_recover_session tmux wd opts sid;
  r3 ← ar_recover_session tmux wd opts sid;
  mret (r1, r2, r3).

End RecoveryHarness.

(* ================================================================= *)
(** ** Registry: helper lemmas *)
(* ================================================================= *)

Module RegistryFacts.
Import SessionManager RegistryHarness.

Lemma list_max_ge (l : list nat) x : In x l -> x <= list_max l.
Proof.
  intros Hin. pose proof (proj1 (list_max_le l (list_max l)) (le_n _)) as H.
  rewrite Forall_forall in H. apply H. by apply list_elem_of_In.
Qed.

Lemma list_max_in (l : list nat) : l <> [] -> In (list_max l) l.
Proof.
  induction l as [|x l IH]; [done|]. intros _. simpl.
  destruct l as [|y l'].
  - simpl. left. lia.
  - destruct (Nat.max_spec x (list_max (y :: l'))) as [[_ ->]|[_ ->]].
    + right. apply IH. done.
    + left. done.
Qed.

Lemma keys_spec {V} (cache : gmap nat V) k :
  In k (map_to_list cache).*1 <-> is_Some (cache !! k).
Proof.
  rewrite <- list_elem_of_In, list_elem_of_fmap. split.
  - intros [[k' v] [-> Hin]]. apply elem_of_map_to_list in Hin. simpl. eauto.
  - intros [v Hv]. exists (k, v). split; [done|]. by apply elem_of_map_to_list.
Qed.

Lemma next_session_id_fresh (cache : gmap nat SessionInfo) k :
  is_Some (cache !! k) -> k < next_session_id cache.
Proof.
  intros Hk. apply keys_spec in Hk. unfold next_session_id.
  destruct ((map_to_list cache).*1) as [|x l] eqn:E; [done|].
  rewrite <- E in *. apply list_max_ge in Hk. lia.
Qed.

Lemma next_session_id_fresh_None (cache : gmap nat SessionInfo) :
  cache !! next_session_id cache = None.
Proof.
  destruct (cache !! next_session_id cache) eqn:E; [|done].
  pose proof (next_session_id_fresh cache _ (mk_is_Some _ _ E)). lia.
Qed.

Lemma next_session_id_empty : next_session_id ∅ = 1.
Proof. reflexivity. Qed.

Lemma next_session_id_max (cache : gmap nat SessionInfo) :
  cache <> ∅ ->
  exists k i, cache !! k = Some i /\ next_session_id cache = k + 1.
Proof.
  intros Hne. unfold next_session_id.
  destruct ((map_to_list cache).*1) as [|x l] eqn:E.
  - destruct (map_choose cache Hne) as (k & i & Hk).
    assert (In k (map_to_list cache).*1) as Hin by (apply keys_spec; eauto).
    rewrite E in Hin. destruct Hin.
  - rewrite <- E. assert (In (list_max (map_to_list cache).*1) (map_to_list cache).*1) as Hin.
    { apply list_max_in. rewrite E. done. }
    apply keys_spec in Hin as [i Hi]. eauto.
Qed.

Lemma save_sessions_reg env s s' r :
  save_sessions env s = (s', r) -> reg s' = reg s.
Proof. destruct env; simpl; intros [= <- _]; done. Qed.

Lemma save_sessions_raise env s s' e :
  save_sessions env s = (s', Raise e) -> exists m, e = SessionManagerError m.
Proof. destruct env; simpl; intros [= _ <-]; eauto. Qed.

Lemma coherent_empty : coherent (mkReg ∅ ∅).
Proof. split; simpl; intros *; rewrite lookup_empty; done. Qed.

Lemma coherent_add c env s :
  coherent (reg s) -> coherent (reg (fst (add_session c env s))).
Proof.
  intros [H1 H2]. unfold add_session.
  destruct (channel_map (reg s) !! c) eqn:Ec; [split; done|].
  set (n := next_session_id (sessions_cache (reg s))).
  assert (sessions_cache (reg s) !! n = None) as Hn by apply next_session_id_fresh_None.
  set (s1 := mkSys _ _).
  assert (coherent (reg s1)) as Hc1.
  { split; simpl.
    - intros k i Hk. destruct (decide (k = n)) as [->|Hne].
      + rewrite lookup_insert_eq in Hk. injection Hk as <-. simpl.
        split; [done|]. by rewrite lookup_insert_eq.
      + rewrite lookup_insert_ne in Hk by congruence.
        destruct (H1 k i Hk) as [Hid Hch]. split; [done|].
        rewrite lookup_insert_ne; [done|]. intros Heq. rewrite <- Heq in Hch. congruence.
    - intros c' k Hk. destruct (decide (c' = c)) as [->|Hne].
      + rewrite lookup_insert_eq in Hk. injection Hk as <-.
        eexists. rewrite lookup_insert_eq. split; done.
      + rewrite lookup_insert_ne in Hk by congruence.
        destruct (H2 c' k Hk) as (i & Hi & Hci).
        exists i. rewrite lookup_insert_ne; [done|]. intros ->. congruence. }
  destruct (save_sessions env s1) as [s2 r] eqn:Es.
  pose proof (save_sessions_reg _ _ _ _ Es) as Hr.
  destruct r as [u|[m|m]]; simpl; rewrite ?Hr; try done.
  all: split; done.
Qed.

Lemma coherent_remove sid env s :
  coherent (reg s) -> coherent (reg (fst (remove_session sid env s))).
Proof.
  intros [H1 H2]. unfold remove_session.
  destruct (sessions_cache (reg s) !! sid) as [info|] eqn:Ei; [|split; done].
  destruct (H1 sid info Ei) as [Hsid Hch]. rewrite Hch.
  set (s1 := mkSys _ _).
  assert (coherent (reg s1)) as Hc1.
  { split; simpl.
    - intros k i Hk. destruct (decide (k = sid)) as [->|Hne].
      { by rewrite lookup_delete_eq in Hk. }
      rewrite lookup_delete_ne in Hk by congruence.
      destruct (H1 k i Hk) as [Hid Hc]. split; [done|].
      rewrite lookup_delete_ne; [done|]. intros Heq. rewrite <- Heq in Hc. congruence.
    - intros c k Hk. destruct (decide (c = channel_id info)) as [->|Hne].
      { by rewrite lookup_delete_eq in Hk. }
      rewrite lookup_delete_ne in Hk by congruence.
      destruct (H2 c k Hk) as (i & Hi & Hci).
      exists i. rewrite lookup_delete_ne; [done|]. intros ->. congruence. }
  destruct (save_sessions env s1) as [s2 r] eqn:Es.
  pose proof (save_sessions_reg _ _ _ _ Es) as Hr.
  destruct r; simpl; rewrite ?Hr; try done.
  all: split; done.
Qed.

Lemma coherent_run_ops ops s : coherent (reg s) -> coherent (reg (run_ops ops s)).
Proof.
  revert s. induction ops as [|op ops IH]; intros s Hs; simpl; [done|].
  apply IH. destruct op; simpl; [apply coherent_add | apply coherent_remove]; done.
Qed.

Lemma foldl_insert_lookup (l : list SessionInfo) (d : gmap nat string) k ch :
  foldl (fun d info => <[session_id info := channel_id info]> d) d l !! k = Some ch ->
  d !! k = Some ch \/ exists info, info ∈ l /\ session_id info = k /\ channel_id info = ch.
Proof.
  revert d. induction l as [|x l IH]; intros d H; simpl in H; [by left|].
  destruct (IH _ H) as [Hd|(info & Hin & Hid & Hch)].
  - destruct (decide (session_id x = k)) as [<-|Hne].
    + rewrite lookup_insert_eq in Hd. injection Hd as <-.
      right. exists x. split; [left|]; done.
    + rewrite lookup_insert_ne in Hd by done. by left.
  - right. exists info. split; [right|]; done.
Qed.

(** What a successful [_save_sessions] writes: only active entries. *)
Lemma save_sessions_written env s s' u k ch :
  save_sessions env s = (s', Ok u) -> disk s' !! k = Some ch ->
  exists key info, sessions_cache (reg s) !! key = Some info /\
    status info = "active" /\ session_id info = k /\ channel_id info = ch.
Proof.
  destruct env; simpl; intros [= <- _]; simpl; intros H.
  unfold sessions_dict in H.
  destruct (foldl_insert_lookup _ _ _ _ H) as [He|(info & Hin & Hid & Hch)].
  { by rewrite lookup_empty in He. }
  apply list_elem_of_filter in Hin as [Hact Hin].
  apply list_elem_of_fmap in Hin as [[key info'] [-> Hin]].
  apply elem_of_map_to_list in Hin. eauto 10.
Qed.

Lemma load_fold_absent (l : list (nat * string)) r k :
  sessions_cache r !! k = None -> ~ In k l.*1 ->
  sessions_cache (foldl load_entry r l) !! k = None.
Proof.
  revert r. induction l as [|[k' v] l IH]; intros r Hr Hnin; simpl; [done|].
  apply IH.
  - simpl. rewrite lookup_insert_ne; [done|]. intros ->. apply Hnin. left. done.
  - intros Hin. apply Hnin. right. done.
Qed.

Lemma load_sessions_absent (d : gmap nat string) k :
  d !! k = None -> sessions_cache (load_sessions d) !! k = None.
Proof.
  intros Hd. apply load_fold_absent; [apply lookup_empty|].
  rewrite keys_spec, Hd. intros [? ?]; done.
Qed.

End RegistryFacts.

(* ================================================================= *)
(** ** Registry claims *)
(* ================================================================= *)

Module RegistryClaims.
Import SessionManager RegistryHarness RegistryFacts.

(** C1 (the code at a failing input).  [add_session("chan-A")] on the empty
    registry, with [sessions.json] not writable: [SessionManagerError] is
    raised, yet the in-memory registry keeps session 1 mapped to
    ["chan-A"], because [except SessionManagerError: raise] runs before the
    rollback handler. *)
Lemma add_session_save_failure_keeps_entry :
  add_session "chan-A" DiskFail empty_sys =
    (mkSys (mkReg {[1 := mkInfo 1 "chan-A" "active"]} {["chan-A" := 1]}) ∅,
     Raise (SessionManagerError "Session save failed")) /\
  reg (fst (add_session "chan-A" DiskFail empty_sys)) <> reg empty_sys.
Proof.
  split; [vm_compute; reflexivity|].
  vm_compute. intros H. discriminate (f_equal (fun r => sessions_cache r !! 1) H).
Qed.

(** C4.  For every registry and every unmapped channel, a successful
    [add_session] returns 1 on the empty registry and otherwise the largest
    existing session id plus one; in particular with ids {1,2,3}, after
    removing session 2 the next add returns 4, not 2. *)
Theorem add_session_next_id (s : Sys) (c : string)
    (Hfree : channel_map (reg s) !! c = None) :
  (exists s' n, add_session c DiskOk s = (s', Ok n) /\
     (sessions_cache (reg s) = ∅ -> n = 1) /\
     (sessions_cache (reg s) <> ∅ ->
        (forall k i, sessions_cache (reg s) !! k = Some i -> k < n) /\
        exists k i, sessions_cache (reg s) !! k = Some i /\ n = k + 1)) /\
  snd (add_session "chan-X" DiskOk (fst (remove_session 2 DiskOk registry_123))) = Ok 4.
Proof.
  split; [|vm_compute; reflexivity].
  unfold add_session. rewrite Hfree. simpl.
  eexists _, _. split; [reflexivity|]. split.
  - intros ->. apply next_session_id_empty.
  - intros Hne. split.
    + intros k i Hk. apply next_session_id_fresh. eauto.
    + apply next_session_id_max. done.
Qed.

Lemma add_session_next_id_witness :
  channel_map (reg registry_123) !! "chan-D" = None /\
  exists s' n, add_session "chan-D" DiskOk registry_123 = (s', Ok n).
Proof.
  split; [vm_compute; reflexivity|].
  destruct (add_session_next_id registry_123 "chan-D" ltac:(vm_compute; reflexivity))
    as [(s' & n & Hadd & _) _].
  exists s', n. exact Hadd.
Defined.

(** C6 (counterexample).  [remove_session] of an id absent from the
    registry returns [False], not [True]. *)
Lemma remove_absent_not_true :
  snd (remove_session 5 DiskOk empty_sys) <> true.
Proof. vm_compute. discriminate. Qed.

(** C7.  For every sequence of adds and removes (each write succeeding or
    failing) from the empty registry, no two cached entries share a
    channel id and no two share a session id; and on every registry an add
    of an already-mapped channel raises [SessionManagerError] and leaves
    the state as it was. *)
Theorem registry_uniqueness (ops : list reg_op) :
  (forall k1 k2 i1 i2,
     sessions_cache (reg (run_ops ops empty_sys)) !! k1 = Some i1 ->
     sessions_cache (reg (run_ops ops empty_sys)) !! k2 = Some i2 ->
     channel_id i1 = channel_id i2 -> k1 = k2) /\
  (forall k1 k2 i1 i2,
     sessions_cache (reg (run_ops ops empty_sys)) !! k1 = Some i1 ->
     sessions_cache (reg (run_ops ops empty_sys)) !! k2 = Some i2 ->
     session_id i1 = session_id i2 -> k1 = k2) /\
  (forall s c env, is_Some (channel_map (reg s) !! c) ->
     exists m, add_session c env s = (s, Raise (SessionManagerError m))).
Proof.
  destruct (coherent_run_ops ops empty_sys coherent_empty) as [H1 H2].
  split; [|split].
  - intros k1 k2 i1 i2 Hk1 Hk2 Hc.
    destruct (H1 _ _ Hk1) as [_ Hm1]. destruct (H1 _ _ Hk2) as [_ Hm2].
    rewrite Hc in Hm1. congruence.
  - intros k1 k2 i1 i2 Hk1 Hk2 Hs.
    destruct (H1 _ _ Hk1) as [<- _]. destruct (H1 _ _ Hk2) as [<- _]. done.
  - intros s c env [k Hk]. unfold add_session. rewrite Hk. eauto.
Qed.

Lemma registry_uniqueness_witness :
  sessions_cache (reg registry_123) !! 1 = Some (mkInfo 1 "chan-A" "active") /\
  sessions_cache (reg registry_123) !! 2 = Some (mkInfo 2 "chan-B" "active") /\
  is_Some (channel_map (reg registry_123) !! "chan-A") /\
  (channel_id (mkInfo 1 "chan-A" "active") = channel_id (mkInfo 2 "chan-B" "active") -> 1 = 2) /\
  exists m, add_session "chan-A" DiskOk registry_123 =
              (registry_123, Raise (SessionManagerError m)).
Proof.
  destruct (registry_uniqueness [OpAdd "chan-A" DiskOk; OpAdd "chan-B" DiskOk;
                                 OpAdd "chan-C" DiskOk]) as (H1 & _ & H3).
  split; [vm_compute; reflexivity|]. split; [vm_compute; reflexivity|].
  split; [vm_compute; eexists; reflexivity|]. split.
  - apply H1; vm_compute; reflexivity.
  - apply H3. vm_compute. eexists. reflexivity.
Defined.

(** C10.  A successful [_save_sessions] writes only entries whose status is
    ["active"].  Hence, on a registry whose entries are stored under their
    own ids, once [update_session_health(sid, False)] has set session
    [sid] to ["error"], any add or remove that completes its save leaves
    [sid] out of [sessions.json], and a registry reloaded from that file
    has no session [sid]. *)
Theorem error_session_dropped_on_next_save :
  (forall env s s' u k ch,
     save_sessions env s = (s', Ok u) -> disk s' !! k = Some ch ->
     exists key info, sessions_cache (reg s) !! key = Some info /\
       status info = "active" /\ session_id info = k /\ channel_id info = ch) /\
  (forall s sid i,
     (forall k j, sessions_cache (reg s) !! k = Some j -> session_id j = k) ->
     sessions_cache (reg s) !! sid = Some i ->
     (forall c env s' n,
        add_session c env (update_session_health sid false s) = (s', Ok n) ->
        disk s' !! sid = None /\ sessions_cache (load_sessions (disk s')) !! sid = None) /\
     (forall sid' env s',
        remove_session sid' env (update_session_health sid false s) = (s', true) ->
        disk s' !! sid = None /\ sessions_cache (load_sessions (disk s')) !! sid = None)).
Proof.
  split; [exact save_sessions_written|].
  intros s sid i Hwf Hi.
  set (s1 := update_session_health sid false s).
  assert (Hs1 : forall key info, sessions_cache (reg s1) !! key = Some info ->
            session_id info = sid -> status info <> "active").
  { intros key info Hk Hid. simpl in Hk.
    destruct (decide (key = sid)) as [->|Hne].
    - rewrite lookup_alter_eq, Hi in Hk. simplify_eq/=. done.
    - rewrite lookup_alter_ne in Hk by congruence.
      apply Hwf in Hk. congruence. }
  assert (Hsid1 : is_Some (sessions_cache (reg s1) !! sid)).
  { simpl. rewrite lookup_alter_eq, Hi. simpl. eauto. }
  assert (Hfinal : forall s2 s' u, (forall key info, sessions_cache (reg s2) !! key = Some info ->
                       session_id info = sid -> status info <> "active") ->
            forall env, save_sessions env s2 = (s', Ok u) ->
            disk s' !! sid = None /\ sessions_cache (load_sessions (disk s')) !! sid = None).
  { intros s2 s' u Hs2 env Es.
    assert (disk s' !! sid = None) as Hd.
    { destruct (disk s' !! sid) as [ch|] eqn:Ed; [|done].
      destruct (save_sessions_written _ _ _ _ _ _ Es Ed) as (key & info & Hk & Ha & Hid & _).
      exfalso. exact (Hs2 _ _ Hk Hid Ha). }
    split; [done|]. by apply load_sessions_absent. }
  split.
  - intros c env s' n Hadd. unfold add_session in Hadd.
    destruct (channel_map (reg s1) !! c); [discriminate|].
    set (n1 := next_session_id (sessions_cache (reg s1))) in Hadd.
    assert (sid < n1) by (apply next_session_id_fresh; done).
    destruct (save_sessions env _) as [s2 r] eqn:Es.
    destruct r as [u|[m|m]]; inversion Hadd; subst.
    eapply Hfinal; [|exact Es].
    intros key info Hk Hid. simpl in Hk.
    destruct (decide (key = n1)) as [->|Hne].
    + rewrite lookup_insert_eq in Hk. injection Hk as <-. simpl in Hid. lia.
    + rewrite lookup_insert_ne in Hk by congruence. exact (Hs1 _ _ Hk Hid).
  - intros sid' env s' Hrm. unfold remove_session in Hrm.
    destruct (sessions_cache (reg s1) !! sid') as [info'|]; [|discriminate].
    destruct (save_sessions env _) as [s2 r] eqn:Es.
    destruct r as [u|e]; inversion Hrm; subst.
    eapply Hfinal; [|exact Es].
    intros key info Hk Hid. simpl in Hk.
    destruct (decide (key = sid')) as [->|Hne].
    + by rewrite lookup_delete_eq in Hk.
    + rewrite lookup_delete_ne in Hk by congruence. exact (Hs1 _ _ Hk Hid).
Qed.
Lemma error_session_dropped_on_next_save_witness :
  disk (fst (add_session "chan-X" DiskOk (update_session_health 2 false registry_123))) !! 2
    = None.
Proof.
  destruct error_session_dropped_on_next_save as [_ H].
  destruct (H registry_123 2 (mkInfo 2 "chan-B" "active")) as [Hadd _].
  - change (map_Forall (fun k j => session_id j = k) (sessions_cache (reg registry_123))).
    apply (bool_decide_unpack _). vm_compute. reflexivity.
  - vm_compute. reflexivity.
  - refine (proj1 (Hadd "chan-X" DiskOk
      (fst (add_session "chan-X" DiskOk (update_session_health 2 false registry_123))) 4 _)).
    vm_compute. reflexivity.
Defined.


End RegistryClaims.

(* ================================================================= *)
(** ** Backoff claim *)
(* ================================================================= *)

Module BackoffClaims.
Import RecoveryStrategy.

(** C3.  For every attempt [n >= 1], [get_backoff_time n] is
    [min(1 * 2^(n-1), 60)]; it is non-decreasing in [n], never above 60,
    and takes the values 1, 2, 4 and 60 at attempts 1, 2, 3 and 7. *)
Theorem get_backoff_time_spec (n : Z) (Hn : (1 <= n)%Z) :
  get_backoff_time n = Z.min (2 ^ (n - 1)) 60 /\
  (get_backoff_time n <= get_backoff_time (n + 1))%Z /\
  (get_backoff_time n <= 60)%Z /\
  get_backoff_time 1 = 1%Z /\ get_backoff_time 2 = 2%Z /\
  get_backoff_time 3 = 4%Z /\ get_backoff_time 7 = 60%Z.
Proof.
  unfold get_backoff_time, BASE_BACKOFF_SECONDS, MAX_BACKOFF_SECONDS.
  rewrite !Z.mul_1_l.
  split; [reflexivity|]. split; [|split; [apply Z.le_min_r|repeat split]].
  apply Z.min_le_compat_r. apply Z.pow_le_mono_r; lia.
Qed.

Lemma get_backoff_time_spec_witness :
  (1 <= 4)%Z /\ get_backoff_time 4 = 8%Z /\ (get_backoff_time 4 <= get_backoff_time 5)%Z.
Proof.
  destruct (get_backoff_time_spec 4 ltac:(lia)) as (H1 & H2 & _).
  split; [lia|]. split; [rewrite H1; reflexivity | exact H2].
Defined.

End BackoffClaims.

(* ================================================================= *)
(** ** Recovery: frames of the tmux methods *)
(* ================================================================= *)

Module RecoveryFacts.
Import Recovery RecoveryHarness.

Section Frames.
Context {W : Type}.
Variable tmux : W -> tcmd -> run_result * W.

Lemma bind_inv {A B} (m : M W A) (f : A -> M W B) s r s' :
  (m ≫= f) s = (r, s') ->
  (exists a s1, m s = (Ret a, s1) /\ f a s1 = (r, s')) \/
  (exists e, m s = (Exc e, s') /\ r = Exc e).
Proof.
  unfold mbind, M_bind. destruct (m s) as [[a|e] s1]; intros H.
  - left. eauto.
  - right. injection H as <- <-. eauto.
Qed.

Lemma try_inv {A} (m : M W A) h s r s' :
  try_catch m h s = (r, s') ->
  (exists a, m s = (Ret a, s') /\ r = Ret a) \/
  (exists e s1, m s = (Exc e, s1) /\ h e s1 = (r, s')).
Proof.
  unfold try_catch. destruct (m s) as [[a|e] s1]; intros H.
  - left. injection H as <- <-. eauto.
  - right. eauto.
Qed.

Lemma ret_inv {A} (x : A) s r s' : mret (M:=M W) x s = (r, s') -> r = Ret x /\ s' = s.
Proof. intros H. injection H as <- <-. done. Qed.

Lemma get_inv {A} (f : St W -> M W A) s r s' :
  (get_state ≫= f) s = (r, s') -> f s s = (r, s').
Proof. done. Qed.

Lemma frame_refl lo (s : St W) : lo = 0 -> frame lo 0 s s.
Proof. intros ->. split; try done; lia. Qed.

Lemma frame_trans lo1 hi1 lo2 hi2 (s1 s2 s3 : St W) :
  frame lo1 hi1 s1 s2 -> frame lo2 hi2 s2 s3 -> frame (lo1 + lo2) (hi1 + hi2) s1 s3.
Proof.
  intros [? ? ? ? ? ? ?] [? ? ? ? ? ? ?]. split; try lia; try congruence; auto.
Qed.

Lemma frame_weaken lo hi lo' hi' (s s' : St W) :
  lo' <= lo -> hi <= hi' -> frame lo hi s s' -> frame lo' hi' s s'.
Proof. intros ? ? [? ? ? ? ? ? ?]. split; try lia; auto. Qed.

Lemma frm_weaken {A} lo hi lo' hi' (m : M W A) :
  lo' <= lo -> hi <= hi' -> frm lo hi m -> frm lo' hi' m.
Proof. intros ? ? Hm s r s' E. eapply frame_weaken; eauto. Qed.

Lemma frm_ret {A} (x : A) : frm 0 0 (mret (M:=M W) x).
Proof. intros s r s' E. apply ret_inv in E as [_ ->]. by apply frame_refl. Qed.

Lemma frm_raise {A} e : frm 0 0 (raise (W:=W) (A:=A) e).
Proof. intros s r s' E. injection E as _ <-. by apply frame_refl. Qed.

Lemma frm_bind {A B} lo1 hi1 hi2 (m : M W A) (f : A -> M W B) :
  frm lo1 hi1 m -> (forall x, frm 0 hi2 (f x)) -> frm lo1 (hi1 + hi2) (m ≫= f).
Proof.
  intros Hm Hf s r s' E. apply bind_inv in E as [(a & s1 & E1 & E2)|(e & E1 & _)].
  - rewrite <- (Nat.add_0_r lo1). eapply frame_trans; [eapply Hm|eapply Hf]; eauto.
  - eapply frame_weaken; [| |eapply Hm; eauto]; lia.
Qed.

Lemma frm_try {A} lo1 hi1 hi2 (m : M W A) h :
  frm lo1 hi1 m -> (forall e, frm 0 hi2 (h e)) -> frm lo1 (hi1 + hi2) (try_catch m h).
Proof.
  intros Hm Hh s r s' E. apply try_inv in E as [(a & E1 & _)|(e & s1 & E1 & E2)].
  - eapply frame_weaken; [| |eapply Hm; eauto]; lia.
  - rewrite <- (Nat.add_0_r lo1). eapply frame_trans; [eapply Hm|eapply Hh]; eauto.
Qed.

Lemma frm_get {A} (f : St W -> M W A) lo hi :
  (forall s0, frm lo hi (f s0)) -> frm lo hi (get_state ≫= f).
Proof. intros Hf s r s' E. apply get_inv in E. eapply Hf; eauto. Qed.

Lemma frm_emit {A} ev (k : M W A) lo hi :
  is_failure_notice ev = false -> frm lo hi k ->
  frm (if is_create ev then S lo else lo) (if is_create ev then S hi else hi) (emit ev ;; k).
Proof.
  intros Hev Hf s r s' E. apply bind_inv in E as [(u & s1 & E1 & E2)|(e & E1 & _)];
    [|discriminate].
  injection E1 as <- <-. destruct (Hf _ _ _ E2) as [Hl Hh Hk Hr Hhi Hfl Hn].
  unfold ncreates, nfailures in *. cbn [trace tcache registry history List.filter] in *.
  rewrite Hev in Hfl.
  destruct (is_create ev); cbn [length] in *; split; unfold ncreates, nfailures; auto; lia.
Qed.

Lemma frm_run_tmux check c : frm 0 0 (run_tmux tmux check c).
Proof.
  intros s r s' E. unfold run_tmux in E. destruct (tmux (mux s) c) as [rr w'].
  assert (frame 0 0 s (mkSt (tcache s) w' (EvTmux c :: trace s) (history s) (counts s) (registry s))).
  { split; simpl; auto; unfold ncreates, nfailures; simpl; lia. }
  destruct rr as [n|]; [destruct (check && negb (Nat.eqb n 0))|]; injection E as _ <-; done.
Qed.

Lemma frm_modify f :
  (forall c j, is_Some (c !! j) -> is_Some (f c !! j)) ->
  (forall c, no_recovery_failed c -> no_recovery_failed (f c)) ->
  frm 0 0 (modify_tcache (W:=W) f).
Proof.
  intros Hk Hn s r s' E. unfold modify_tcache in E. apply get_inv in E.
  injection E as _ <-. split; simpl; auto; lia.
Qed.

Lemma alter_status_keys st (c : gmap nat TEntry) sid j :
  is_Some (c !! j) -> is_Some (alter (set_status st) sid c !! j).
Proof. intros. by apply lookup_alter_is_Some. Qed.

Lemma insert_norf (c : gmap nat TEntry) sid e :
  t_status e <> "recovery_failed" -> no_recovery_failed c ->
  no_recovery_failed (<[sid := e]> c).
Proof.
  intros He Hc k e' Hk. destruct (decide (k = sid)) as [->|Hne].
  - rewrite lookup_insert_eq in Hk. congruence.
  - rewrite lookup_insert_ne in Hk by congruence. eauto.
Qed.

Lemma alter_status_norf st (c : gmap nat TEntry) sid :
  st <> "recovery_failed" -> no_recovery_failed c ->
  no_recovery_failed (alter (set_status st) sid c).
Proof.
  intros Hst Hc k e Hk. destruct (decide (k = sid)) as [->|Hne].
  - rewrite lookup_alter_eq in Hk. destruct (c !! sid); simplify_eq/=. done.
  - rewrite lookup_alter_ne in Hk by congruence. eauto.
Qed.

Ltac frm_handler := intros []; first [apply frm_ret | apply frm_raise].

Lemma frm_is_exists sid : frm 0 0 (is_claude_session_exists tmux sid).
Proof.
  unfold is_claude_session_exists.
  apply (frm_try 0 0 0); [|frm_handler].
  apply (frm_bind 0 0 0); [apply frm_run_tmux|]. intros rc. cbv zeta.
  apply (frm_bind 0 0 0); [apply frm_modify|intros; apply frm_ret].
  - intros c j Hj. destruct (Nat.eqb rc 0); [done|by apply alter_status_keys].
  - intros c Hc. destruct (Nat.eqb rc 0); [done|by apply alter_status_norf].
Qed.

Lemma frm_create sid wd opts : frm 1 1 (create_claude_session tmux sid wd opts).
Proof.
  unfold create_claude_session.
  apply (frm_emit (EvCreate sid) _ 0 0); [done|].
  apply (frm_bind 0 0 0); [apply frm_is_exists|]. intros []; [apply frm_ret|]. cbv zeta.
  apply (frm_try 0 0 0); [|frm_handler].
  apply (frm_bind 0 0 0); [apply frm_run_tmux|]. intros _.
  apply (frm_bind 0 0 0); [apply frm_modify|intros; apply frm_ret].
  - intros c j Hj. rewrite lookup_insert_is_Some'. by right.
  - intros c Hc. by apply insert_norf.
Qed.

Lemma frm_kill sid : frm 0 0 (kill_claude_session tmux sid).
Proof.
  unfold kill_claude_session.
  apply (frm_bind 0 0 0); [apply frm_is_exists|]. intros []; cbn [negb]; [|apply frm_ret].
  apply (frm_try 0 0 0); [|frm_handler].
  apply (frm_bind 0 0 0); [apply frm_run_tmux|]. intros _.
  apply (frm_bind 0 0 0); [apply frm_modify|intros; apply frm_ret].
  - intros c j Hj. by apply alter_status_keys.
  - intros c Hc. by apply alter_status_norf.
Qed.

Lemma frm_check_session_health sid : frm 0 0 (check_session_health tmux sid).
Proof.
  unfold check_session_health.
  apply (frm_try 0 0 0); [|intros; apply frm_ret].
  apply (frm_bind 0 0 0); [apply frm_is_exists|]. intros h.
  apply (frm_bind 0 0 0); [apply frm_modify|intros; apply frm_ret].
  - intros c j Hj. by apply alter_status_keys.
  - intros c Hc. apply alter_status_norf; [destruct h; done|done].
Qed.

Lemma frm_ar_check_session_health sid : frm 0 0 (ar_check_session_health tmux sid).
Proof.
  unfold ar_check_session_health.
  apply (frm_try 0 0 0); [|intros; apply frm_ret].
  apply (frm_bind 0 0 0); [apply frm_is_exists|]. intros []; cbn [negb]; [|apply frm_ret].
  apply frm_get. intros s0. destruct (SessionManager.is_session_active _ _); apply frm_ret.
Qed.

Lemma frm_emit_only ev :
  is_create ev = false -> is_failure_notice ev = false -> frm 0 0 (emit (W:=W) ev).
Proof.
  intros Hc Hf s r s' E. injection E as _ <-.
  split; unfold ncreates, nfailures; cbn [trace tcache registry history List.filter];
    rewrite ?Hc, ?Hf; auto; lia.
Qed.

Lemma frm_sleep_or_skip (b : bool) n :
  frm 0 0 (if b then emit (W:=W) (EvSleep n) else mret tt).
Proof. destruct b; [by apply frm_emit_only|apply frm_ret]. Qed.

Lemma frm_kill_wrapped sid :
  frm 0 0 (try_catch (kill_claude_session tmux sid;; mret tt) (fun _ => mret tt)).
Proof.
  apply (frm_try 0 0 0); [|intros; apply frm_ret].
  apply (frm_bind 0 0 0); [apply frm_kill|intros; apply frm_ret].
Qed.

Lemma kill_wrapped_ret sid s r s' :
  try_catch (kill_claude_session tmux sid;; mret tt) (fun _ => mret tt) s = (r, s') -> r = Ret tt.
Proof.
  intros E. apply try_inv in E as [([] & _ & ->)|(e & s1 & _ & E)]; [done|].
  by apply ret_inv in E as [-> _].
Qed.

(** One loop iteration: with no cache entry it returns [False] at once;
    otherwise it calls [create_claude_session] exactly once and does not
    [return False]. *)
Lemma recover_attempt_spec sid attempt s r s' :
  recover_attempt tmux sid attempt s = (r, s') ->
  (tcache s !! sid = None /\ r = Ret (Some false) /\ s' = s) \/
  (is_Some (tcache s !! sid) /\ frame 1 1 s s' /\ r <> Ret (Some false)).
Proof.
  unfold recover_attempt. intros E. apply get_inv in E.
  destruct (tcache s !! sid) as [info|] eqn:Ei.
  2:{ left. apply ret_inv in E as [-> ->]. done. }
  right. split; [eauto|]. cbv zeta in E.
  apply bind_inv in E as [(ok & s1 & E1 & E2)|(e & E1 & ->)].
  2:{ split; [eapply frm_create; eauto|discriminate]. }
  pose proof (frm_create _ _ _ _ _ _ E1) as F1.
  destruct ok.
  2:{ apply ret_inv in E2 as [-> ->]. split; [exact F1|discriminate]. }
  apply bind_inv in E2 as [(h & s2 & E3 & E4)|(e & E3 & ->)].
  2:{ split; [|discriminate].
      exact (frame_trans _ _ _ _ _ _ _ F1 (frm_check_session_health _ _ _ _ E3)). }
  pose proof (frame_trans _ _ _ _ _ _ _ F1 (frm_check_session_health _ _ _ _ E3)) as F2.
  destruct h.
  2:{ apply ret_inv in E4 as [-> ->]. split; [exact F2|discriminate]. }
  apply get_inv in E4. destruct (tcache s2 !! sid) as [e|] eqn:Es2.
  2:{ injection E4 as <- <-. split; [exact F2|discriminate]. }
  apply bind_inv in E4 as [(u & s3 & E5 & E6)|(e' & E5 & _)]; [|discriminate].
  injection E5 as <- <-. apply ret_inv in E6 as [-> ->].
  split; [|discriminate].
  refine (frame_trans 1 1 0 0 _ _ _ F2 _).
  split; cbn [tcache trace registry history]; auto; try lia.
  - intros j Hj. rewrite lookup_insert_is_Some'. by right.
  - intros Hn. by apply insert_norf.
Qed.

Lemma recover_attempt_frame sid attempt s r s' :
  recover_attempt tmux sid attempt s = (r, s') -> frame 0 1 s s'.
Proof.
  intros E. destruct (recover_attempt_spec _ _ _ _ _ E) as [(_ & _ & ->)|(_ & F & _)].
  - eapply frame_weaken; [| |by apply frame_refl]; lia.
  - eapply frame_weaken; [| |exact F]; lia.
Qed.

(** The retry loop never raises and calls [create_claude_session] at most
    once per iteration. *)
Lemma recover_loop_bound sid R fuel : forall attempt s r s',
  recover_loop tmux sid R attempt fuel s = (r, s') ->
  frame 0 fuel s s' /\ exists o, r = Ret o.
Proof.
  induction fuel as [|fuel IH]; intros attempt s r s' E; cbn [recover_loop] in E.
  { apply ret_inv in E as [-> ->]. split; [by apply frame_refl|eauto]. }
  apply bind_inv in E as [(o & s1 & E1 & E2)|(e & E1 & _)].
  2:{ exfalso. apply try_inv in E1 as [(a & _ & Ha)|(e' & s1 & _ & Eh)]; [discriminate|].
      apply ret_inv in Eh as [Hh _]. discriminate. }
  assert (F1 : frame 0 1 s s1).
  { apply try_inv in E1 as [(a & Ea & _)|(e' & s0 & Ea & Eh)].
    - by eapply recover_attempt_frame.
    - apply ret_inv in Eh as [_ ->]. by eapply recover_attempt_frame. }
  destruct o as [b|].
  { apply ret_inv in E2 as [-> ->]. split; [|eauto].
    eapply frame_weaken; [| |exact F1]; lia. }
  apply bind_inv in E2 as [(u & s2 & E3 & E4)|(e & E3 & _)].
  2:{ exfalso. destruct (Nat.ltb attempt R); [discriminate E3|].
      apply ret_inv in E3 as [? _]. discriminate. }
  pose proof (frm_sleep_or_skip _ _ _ _ _ E3) as F2.
  destruct (IH _ _ _ _ E4) as [F3 Hr]. split; [|exact Hr].
  pose proof (frame_trans _ _ _ _ _ _ _ (frame_trans _ _ _ _ _ _ _ F1 F2) F3) as F.
  eapply frame_weaken; [| |exact F]; lia.
Qed.

(** With a cache entry, the loop either returns [True] or runs all its
    iterations, each calling [create_claude_session] once. *)
Lemma recover_loop_present sid R fuel : forall attempt s r s',
  is_Some (tcache s !! sid) ->
  recover_loop tmux sid R attempt fuel s = (r, s') ->
  (r = Ret None /\ frame fuel fuel s s') \/ r = Ret (Some true).
Proof.
  induction fuel as [|fuel IH]; intros attempt s r s' Hs E; cbn [recover_loop] in E.
  { apply ret_inv in E as [-> ->]. left. split; [done|by apply frame_refl]. }
  apply bind_inv in E as [(o & s1 & E1 & E2)|(e & E1 & _)].
  2:{ exfalso. apply try_inv in E1 as [(a & _ & Ha)|(e' & s1 & _ & Eh)]; [discriminate|].
      apply ret_inv in Eh as [Hh _]. discriminate. }
  assert (F1 : frame 1 1 s s1 /\ o <> Some false).
  { apply try_inv in E1 as [(a & Ea & Ho)|(e' & s0 & Ea & Eh)].
    - injection Ho as ->.
      destruct (recover_attempt_spec _ _ _ _ _ Ea) as [(Hn & _ & _)|(_ & F & Hne)].
      + destruct Hs as [? Hs]. congruence.
      + split; [exact F|congruence].
    - apply ret_inv in Eh as [[= ->] ->].
      destruct (recover_attempt_spec _ _ _ _ _ Ea) as [(Hn & _ & _)|(_ & F & _)].
      + destruct Hs as [? Hs]. congruence.
      + split; [exact F|discriminate]. }
  destruct F1 as [F1 Ho].
  destruct o as [[]|]; [|done|].
  { apply ret_inv in E2 as [-> _]. by right. }
  apply bind_inv in E2 as [(u & s2 & E3 & E4)|(e & E3 & _)].
  2:{ exfalso. destruct (Nat.ltb attempt R); [discriminate E3|].
      apply ret_inv in E3 as [? _]. discriminate. }
  pose proof (frm_sleep_or_skip _ _ _ _ _ E3) as F2.
  pose proof (frame_trans _ _ _ _ _ _ _ F1 F2) as F12.
  destruct (IH (S attempt) s2 r s') as [[-> F3] | ->]; [by apply (fr_keys _ _ _ _ F12)|exact E4| |by right].
  left. split; [done|]. exact (frame_trans _ _ _ _ _ _ _ F12 F3).
Qed.

(** *** Steps that never add a cache entry *)

Lemma ka_ret {A} (x : A) : keeps_absent (mret (M:=M W) x).
Proof. intros s r s' j E. by apply ret_inv in E as [_ ->]. Qed.

Lemma ka_raise {A} e : keeps_absent (raise (W:=W) (A:=A) e).
Proof. intros s r s' j E. by injection E as _ <-. Qed.

Lemma ka_bind {A B} (m : M W A) (f : A -> M W B) :
  keeps_absent m -> (forall x, keeps_absent (f x)) -> keeps_absent (m ≫= f).
Proof.
  intros Hm Hf s r s' j E Hj. apply bind_inv in E as [(a & s1 & E1 & E2)|(e & E1 & _)].
  - eapply Hf; [exact E2|]. eapply Hm; eauto.
  - eapply Hm; eauto.
Qed.

Lemma ka_try {A} (m : M W A) h :
  keeps_absent m -> (forall e, keeps_absent (h e)) -> keeps_absent (try_catch m h).
Proof.
  intros Hm Hh s r s' j E Hj. apply try_inv in E as [(a & E1 & _)|(e & s1 & E1 & E2)].
  - eapply Hm; eauto.
  - eapply Hh; [exact E2|]. eapply Hm; eauto.
Qed.

Lemma ka_run_tmux check c : keeps_absent (run_tmux tmux check c).
Proof.
  intros s r s' j E Hj. unfold run_tmux in E. destruct (tmux (mux s) c) as [rr w'].
  destruct rr as [n|]; [destruct (check && negb (Nat.eqb n 0))|];
    injection E as _ <-; exact Hj.
Qed.

Lemma ka_alter (f : TEntry -> TEntry) sid :
  keeps_absent (modify_tcache (W:=W) (alter f sid)).
Proof.
  intros s r s' j E Hj. unfold modify_tcache in E. apply get_inv in E.
  injection E as _ <-. cbn [tcache]. by rewrite lookup_alter_None.
Qed.

Lemma ka_is_exists sid : keeps_absent (is_claude_session_exists tmux sid).
Proof.
  unfold is_claude_session_exists.
  apply ka_try; [|intros []; first [apply ka_ret|apply ka_raise]].
  apply ka_bind; [apply ka_run_tmux|]. intros rc. cbv zeta.
  destruct (Nat.eqb rc 0).
  - apply ka_bind; [|intros; apply ka_ret].
    intros s r s' j E Hj. unfold modify_tcache in E. apply get_inv in E.
    by injection E as _ <-.
  - apply ka_bind; [apply ka_alter|intros; apply ka_ret].
Qed.

Lemma ka_kill_wrapped sid :
  keeps_absent (try_catch (kill_claude_session tmux sid;; mret tt) (fun _ => mret tt)).
Proof.
  apply ka_try; [|intros; apply ka_ret].
  apply ka_bind; [|intros; apply ka_ret].
  unfold kill_claude_session.
  apply ka_bind; [apply ka_is_exists|]. intros []; cbn [negb]; [|apply ka_ret].
  apply ka_try; [|intros []; first [apply ka_ret|apply ka_raise]].
  apply ka_bind; [apply ka_run_tmux|]. intros _.
  apply ka_bind; [apply ka_alter|intros; apply ka_ret].
Qed.

(** [recover_session] for an id with no cache entry: after the best-effort
    kill, it returns [False] and leaves the server and the trace as the kill
    left them. *)
Lemma recover_session_absent sid R s r s' :
  tcache s !! sid = None ->
  recover_session tmux sid R s = (r, s') ->
  r = Ret false /\
  exists s1, try_catch (kill_claude_session tmux sid;; mret tt) (fun _ => mret tt) s = (Ret tt, s1) /\
    mux s' = mux s1 /\ trace s' = trace s1.
Proof.
  unfold recover_session. intros Habs E.
  apply bind_inv in E as [([] & s1 & E1 & E2)|(e & E1 & _)].
  2:{ apply kill_wrapped_ret in E1. discriminate. }
  pose proof (ka_kill_wrapped _ _ _ _ _ E1 Habs) as Habs1.
  apply bind_inv in E2 as [(o & s2 & E3 & E4)|(e & E3 & _)].
  2:{ destruct (recover_loop_bound _ _ _ _ _ _ _ E3) as [_ [o Ho]]. discriminate. }
  assert (Ho : (o = Some false \/ o = None) /\ s2 = s1).
  { destruct R as [|R]; cbn [recover_loop] in E3.
    - apply ret_inv in E3 as [[= ->] ->]. auto.
    - apply bind_inv in E3 as [(o' & s3 & E5 & E6)|(e & E5 & _)].
      + apply try_inv in E5 as [(a & E7 & [= ->])|(e & s4 & E7 & _)].
        * destruct (recover_attempt_spec _ _ _ _ _ E7) as [(_ & [= ->] & ->)|([? Hs] & _)];
            [|congruence].
          apply ret_inv in E6 as [[= ->] ->]. auto.
        * destruct (recover_attempt_spec _ _ _ _ _ E7) as [(_ & Hr & _)|([? Hs] & _)];
            [discriminate|congruence].
      + apply try_inv in E5 as [(a & _ & Ha)|(e' & s4 & _ & Eh)]; [discriminate|].
        apply ret_inv in Eh as [Hh _]. discriminate. }
  destruct Ho as [[-> | ->] ->].
  - apply ret_inv in E4 as [-> ->]. split; [done|]. eauto.
  - apply bind_inv in E4 as [(u & s3 & E5 & E6)|(e & E5 & _)].
    + unfold modify_tcache in E5. apply get_inv in E5. injection E5 as _ <-.
      apply ret_inv in E6 as [-> ->]. split; [done|]. eauto.
    + unfold modify_tcache in E5. apply get_inv in E5. discriminate.
Qed.

(** *** Auto-recovery *)

Lemma frm_set_counts c : frm 0 0 (set_counts (W:=W) c).
Proof. intros s r s' E. injection E as _ <-. split; simpl; auto; lia. Qed.

Lemma frm_ar_body wd opts sid : frm 0 1 (ar_recover_body tmux wd opts sid).
Proof.
  unfold ar_recover_body.
  apply (frm_try 0 1 0); [|intros; apply frm_ret].
  apply (frm_bind 0 0 1); [apply frm_is_exists|]. intros ex.
  apply (frm_bind 0 0 1).
  { destruct ex; [|apply frm_ret].
    apply (frm_bind 0 0 0); [apply frm_kill|intros; by apply frm_emit_only]. }
  intros _. apply (frm_bind 0 1 0).
  { apply (frm_weaken 1 1); [lia|lia|apply frm_create]. }
  intros []; [|apply frm_ret].
  apply (frm_bind 0 0 0); [by apply frm_emit_only|]. intros _.
  apply (frm_bind 0 0 0); [apply frm_ar_check_session_health|]. intros []; [|apply frm_ret].
  apply frm_get. intros s0.
  apply (frm_bind 0 0 0); [apply frm_set_counts|intros; apply frm_ret].
Qed.

(** One failed [AutoRecoverySystem.recover_session] call within the
    attempt limit: it appends one record with the attempt number, stores that
    number as the attempt count and notifies a failure only when the number
    reaches [MAX_RETRY_ATTEMPTS]. *)
Lemma ar_step_failed wd opts sid (s s' : St W) :
  default 0 (counts s !! sid) + 1 <= RecoveryStrategy.MAX_RETRY_ATTEMPTS ->
  ar_recover_session tmux wd opts sid s = (Ret false, s') ->
  (exists msg, history s' =
     (history s ++ [mkAttempt sid (default 0 (counts s !! sid) + 1) false msg])%list) /\
  counts s' !! sid = Some (default 0 (counts s !! sid) + 1) /\
  nfailures (trace s') = nfailures (trace s) +
    (if Nat.eqb (default 0 (counts s !! sid) + 1) RecoveryStrategy.MAX_RETRY_ATTEMPTS
     then 1 else 0) /\
  registry s' = registry s /\
  (no_recovery_failed (tcache s) -> no_recovery_failed (tcache s')).
Proof.
  unfold ar_recover_session. intros Ha E. apply get_inv in E. cbv zeta in E.
  set (a := default 0 (counts s !! sid) + 1) in *.
  assert (Hlt : Nat.ltb RecoveryStrategy.MAX_RETRY_ATTEMPTS a = false)
    by (apply Nat.ltb_ge; exact Ha).
  rewrite Hlt in E.
  apply bind_inv in E as [(u & s1 & E1 & E2)|(e & E1 & _)].
  2:{ exfalso. destruct (Nat.ltb 1 a); [discriminate E1|].
      apply ret_inv in E1 as [? _]. discriminate. }
  pose proof (frm_sleep_or_skip _ _ _ _ _ E1) as F1.
  apply bind_inv in E2 as [([success err] & s2 & E3 & E4)|(e & E3 & _)].
  2:{ exfalso. apply try_inv in E3 as [(x & _ & Hx)|(e' & s0 & _ & Eh)]; [discriminate|].
      apply ret_inv in Eh as [? _]. discriminate. }
  pose proof (frame_trans _ _ _ _ _ _ _ F1 (frm_ar_body _ _ _ _ _ _ E3)) as F2.
  destruct F2 as [_ _ _ Freg Fhist Ffail Fnorf].
  cbv beta iota in E4.
  apply bind_inv in E4 as [(u1 & s3 & E5 & E6)|(e & E5 & _)]; [|discriminate E5].
  injection E5 as _ <-.
  apply bind_inv in E6 as [(u2 & s4 & E7 & E8)|(e & E7 & _)]; [|discriminate E7].
  injection E7 as _ <-.
  apply bind_inv in E8 as [(u3 & s5 & E9 & E10)|(e & E9 & _)].
  2:{ destruct success; [discriminate E9|].
      apply get_inv in E9. apply bind_inv in E9 as [(u4 & s6 & E11 & E12)|(e' & E11 & _)];
        [|discriminate E11].
      injection E11 as _ <-. destruct (Nat.leb _ a); [discriminate E12|].
      apply ret_inv in E12 as [? _]. discriminate. }
  apply ret_inv in E10 as [Hr ->]. destruct success; [discriminate Hr|].
  apply get_inv in E9. apply bind_inv in E9 as [(u4 & s6 & E11 & E12)|(e' & E11 & _)];
    [|discriminate E11].
  injection E11 as _ <-.
  assert (Hnf : nfailures (EvSaveHistory :: trace s2) = nfailures (trace s)).
  { unfold nfailures in *. cbn [List.filter is_failure_notice]. exact Ffail. }
  unfold RecoveryStrategy.MAX_RETRY_ATTEMPTS in *.
  destruct (Nat.leb 3 a) eqn:Hle.
  - apply Nat.leb_le in Hle. injection E12 as _ <-.
    cbn [history counts trace registry tcache].
    split; [rewrite Fhist; eauto|].
    split; [by rewrite lookup_insert_eq|].
    replace (Nat.eqb a 3) with true by (symmetry; apply Nat.eqb_eq; lia).
    split; [|split; [exact Freg|exact Fnorf]].
    unfold nfailures in *. cbn [List.filter is_failure_notice length] in *. lia.
  - apply Nat.leb_gt in Hle. apply ret_inv in E12 as [_ ->].
    cbn [history counts trace registry tcache].
    split; [rewrite Fhist; eauto|].
    split; [by rewrite lookup_insert_eq|].
    replace (Nat.eqb a 3) with false by (symmetry; apply Nat.eqb_neq; lia).
    split; [|split; [exact Freg|exact Fnorf]].
    rewrite Hnf. lia.
Qed.

End Frames.

End RecoveryFacts.

Module RecoveryClaims.
Import Recovery RecoveryHarness RecoveryFacts.

Lemma kill_wrapped_list_mux sid (s s1 : St (list nat)) :
  In sid (mux s) ->
  try_catch (kill_claude_session list_mux sid;; mret tt) (fun _ => mret tt) s = (Ret tt, s1) ->
  ~ In sid (mux s1) /\ In (EvTmux (KillSession sid)) (trace s1).
Proof.
  intros Hin E. assert (Hex : existsb (Nat.eqb sid) (mux s) = true).
  { apply existsb_exists. exists sid. split; [done|apply Nat.eqb_refl]. }
  destruct s as [c w tr h cn rg]. cbn [mux] in Hex, Hin.
  cbv [try_catch kill_claude_session is_claude_session_exists run_tmux modify_tcache
       get_state set_tcache mbind M_bind mret M_ret] in E.
  cbn [list_mux mux] in E. rewrite Hex in E. cbn in E. rewrite Hex in E. cbn in E.
  injection E as <-. cbn [mux trace]. split.
  - intros Hf. apply list_elem_of_In, list_elem_of_filter in Hf as [Hf _]. done.
  - by left.
Qed.

(** C2.  [recover_session(sid, R)] calls [create_claude_session] at most [R]
    times.  When a cache entry exists and the call returns [False], it made
    exactly [R] calls, and the entry ends with status ['recovery_failed']
    and [recovery_attempts = R]. *)
Theorem recover_session_attempt_bound {W} (tmux : W -> tcmd -> run_result * W)
    (sid R : nat) (s s' : St W) (r : outcome bool) :
  recover_session tmux sid R s = (r, s') ->
  ncreates (trace s') <= ncreates (trace s) + R /\
  (is_Some (tcache s !! sid) -> r = Ret false ->
     ncreates (trace s') = ncreates (trace s) + R /\
     exists e, tcache s' !! sid = Some e /\ t_status e = "recovery_failed" /\
               t_recovery_attempts e = Some R).
Proof.
  unfold recover_session. intros E.
  apply bind_inv in E as [([] & s1 & E1 & E2)|(e & E1 & _)].
  2:{ apply kill_wrapped_ret in E1. discriminate. }
  pose proof (frm_kill_wrapped tmux sid _ _ _ E1) as F1.
  apply bind_inv in E2 as [(o & s2 & E3 & E4)|(e & E3 & _)].
  2:{ destruct (recover_loop_bound _ _ _ _ _ _ _ _ E3) as [_ [o Ho]]. discriminate. }
  destruct (recover_loop_bound _ _ _ _ _ _ _ _ E3) as [F2 _].
  pose proof (fr_hi _ _ _ _ (frame_trans _ _ _ _ _ _ _ F1 F2)) as Hhi.
  destruct o as [b|].
  - apply ret_inv in E4 as [-> ->]. split; [lia|].
    intros Hs [= ->].
    destruct (recover_loop_present _ _ _ _ _ _ _ _ (fr_keys _ _ _ _ F1 _ Hs) E3)
      as [[Hn _]|Hn]; discriminate.
  - apply bind_inv in E4 as [(u & s3 & E5 & E6)|(e & E5 & _)].
    2:{ unfold modify_tcache in E5. apply get_inv in E5. discriminate. }
    unfold modify_tcache in E5. apply get_inv in E5. injection E5 as _ <-.
    apply ret_inv in E6 as [-> ->]. cbn [trace tcache].
    split; [lia|]. intros Hs _.
    destruct (recover_loop_present _ _ _ _ _ _ _ _ (fr_keys _ _ _ _ F1 _ Hs) E3)
      as [[_ F3]|Hn]; [|discriminate].
    pose proof (frame_trans _ _ _ _ _ _ _ F1 F3) as F.
    split; [pose proof (fr_lo _ _ _ _ F); lia|].
    destruct (fr_keys _ _ _ _ F _ Hs) as [e He].
    rewrite lookup_alter_eq, He. eexists; split; [reflexivity|]. done.
Qed.

Lemma recover_session_attempt_bound_witness :
  fst (recover_session no_tmux 2 3 fixture_2) = Ret false /\
  ncreates (trace (snd (recover_session no_tmux 2 3 fixture_2))) = ncreates (trace fixture_2) + 3.
Proof.
  split; [vm_compute; reflexivity|].
  destruct (recover_session_attempt_bound no_tmux 2 3 fixture_2 _ _ (surjective_pairing _))
    as [_ H].
  apply H; [by eexists|vm_compute; reflexivity].
Defined.

(** C8.  [recover_session(sid, R)] for an id with no cache entry returns
    [False] and never calls [create_claude_session]. *)
Theorem recover_session_unknown_no_create {W} (tmux : W -> tcmd -> run_result * W)
    (sid R : nat) (s s' : St W) (r : outcome bool) :
  tcache s !! sid = None ->
  recover_session tmux sid R s = (r, s') ->
  r = Ret false /\ ncreates (trace s') = ncreates (trace s).
Proof.
  intros Habs E.
  destruct (recover_session_absent tmux sid R s r s' Habs E) as [-> (s1 & E1 & _ & Htr)].
  split; [done|]. rewrite Htr.
  destruct (frm_kill_wrapped tmux sid _ _ _ E1). lia.
Qed.

Lemma recover_session_unknown_no_create_witness :
  fst (recover_session no_tmux 5 3 fixture_2) = Ret false /\
  ncreates (trace (snd (recover_session no_tmux 5 3 fixture_2))) = ncreates (trace fixture_2).
Proof.
  apply (recover_session_unknown_no_create no_tmux 5 3 fixture_2); [reflexivity|].
  apply surjective_pairing.
Defined.

(** C9.  For an id with a live tmux session but no cache entry,
    [recover_session] kills the live session and then returns [False]. *)
Theorem recover_session_kills_uncached_live (sid R : nat) (s s' : St (list nat))
    (r : outcome bool) :
  tcache s !! sid = None -> In sid (mux s) ->
  recover_session list_mux sid R s = (r, s') ->
  r = Ret false /\ ~ In sid (mux s') /\ In (EvTmux (KillSession sid)) (trace s').
Proof.
  intros Habs Hin E.
  destruct (recover_session_absent list_mux sid R s r s' Habs E) as [-> (s1 & E1 & Hm & Ht)].
  destruct (kill_wrapped_list_mux sid s s1 Hin E1) as [H1 H2].
  rewrite Hm, Ht. auto.
Qed.

Lemma recover_session_kills_uncached_live_witness :
  tcache fixture_live_2 !! 2 = None /\ In 2 (mux fixture_live_2) /\
  fst (recover_session list_mux 2 3 fixture_live_2) = Ret false /\
  ~ In 2 (mux (snd (recover_session list_mux 2 3 fixture_live_2))).
Proof.
  split; [reflexivity|]. split; [by left|].
  destruct (recover_session_kills_uncached_live 2 3 fixture_live_2 _ _
              eq_refl (or_introl eq_refl) (surjective_pairing _)) as (H1 & H2 & _).
  split; [exact H1|exact H2].
Defined.

(** C6 (amended).  [kill_claude_session] of an id with no live tmux
    session returns [True]; [remove_session] of an id absent from the
    registry returns [False] and leaves the registry and the file as they
    were. *)
Theorem kill_absent_true_remove_unknown_false {W} (tmux : W -> tcmd -> run_result * W)
    (s : St W) (sid sid' : nat) (sys : SessionManager.Sys) (env : SessionManager.disk_env) :
  fst (tmux (mux s) (HasSession sid)) <> RC 0 ->
  SessionManager.sessions_cache (SessionManager.reg sys) !! sid' = None ->
  fst (kill_claude_session tmux sid s) = Ret true /\
  SessionManager.remove_session sid' env sys = (sys, false).
Proof.
  intros Hrc Habs. split.
  - cbv [kill_claude_session is_claude_session_exists try_catch run_tmux modify_tcache
         get_state set_tcache mbind M_bind mret M_ret].
    destruct (tmux (mux s) (HasSession sid)) as [[n|] w'] eqn:Et; cbn [fst] in Hrc |- *.
    + destruct (Nat.eqb_spec n 0) as [->|Hn]; [done|].
      apply Nat.eqb_neq in Hn. cbn. by rewrite Hn.
    + reflexivity.
  - unfold SessionManager.remove_session. by rewrite Habs.
Qed.

Lemma kill_absent_true_remove_unknown_false_witness :
  fst (kill_claude_session list_mux 5 fixture_live_2) = Ret true /\
  SessionManager.remove_session 5 SessionManager.DiskOk SessionManager.empty_sys =
    (SessionManager.empty_sys, false).
Proof.
  apply kill_absent_true_remove_unknown_false; [vm_compute; discriminate|reflexivity].
Defined.

(** C5 (amended).  Three consecutive failed
    [AutoRecoverySystem.recover_session] calls for a session with no
    attempt count yet append exactly three records (attempts 1, 2 and 3,
    all failed) and end with the attempt count 3.  Only the third call
    sends a failure notification.  The calls leave the registry unchanged,
    and no tmux cache entry is given the status ['recovery_failed']. *)
Theorem ar_three_failed_recoveries {W} (tmux : W -> tcmd -> run_result * W)
    (wd opts : string) (sid : nat) (s s1 s2 s3 : St W) :
  counts s !! sid = None ->
  ar_recover_session tmux wd opts sid s = (Ret false, s1) ->
  ar_recover_session tmux wd opts sid s1 = (Ret false, s2) ->
  ar_recover_session tmux wd opts sid s2 = (Ret false, s3) ->
  (exists m1 m2 m3, history s3 = (history s ++ [mkAttempt sid 1 false m1;
                                                mkAttempt sid 2 false m2;
                                                mkAttempt sid 3 false m3])%list) /\
  nfailures (trace s2) = nfailures (trace s) /\
  nfailures (trace s3) = nfailures (trace s) + 1 /\
  counts s3 !! sid = Some 3 /\
  registry s3 = registry s /\
  (no_recovery_failed (tcache s) -> no_recovery_failed (tcache s3)).
Proof.
  intros H0 E1 E2 E3.
  destruct (ar_step_failed tmux wd opts sid s s1 ltac:(rewrite H0; vm_compute; lia) E1)
    as [[m1 Hh1] [Hc1 [Hf1 [Hr1 Hn1]]]].
  rewrite H0 in Hh1, Hc1, Hf1. simpl in Hh1, Hc1, Hf1.
  destruct (ar_step_failed tmux wd opts sid s1 s2 ltac:(rewrite Hc1; vm_compute; lia) E2)
    as [[m2 Hh2] [Hc2 [Hf2 [Hr2 Hn2]]]].
  rewrite Hc1 in Hh2, Hc2, Hf2. simpl in Hh2, Hc2, Hf2.
  destruct (ar_step_failed tmux wd opts sid s2 s3 ltac:(rewrite Hc2; vm_compute; lia) E3)
    as [[m3 Hh3] [Hc3 [Hf3 [Hr3 Hn3]]]].
  rewrite Hc2 in Hh3, Hc3, Hf3. simpl in Hh3, Hc3, Hf3.
  split; [exists m1, m2, m3; rewrite Hh3, Hh2, Hh1, <- !app_assoc; reflexivity|].
  split; [lia|]. split; [lia|]. split; [exact Hc3|].
  split; [congruence|auto].
Qed.

Lemma ar_three_failed_recoveries_witness :
  counts (ar_run (ar_run (ar_run fixture_2))) !! 2 = Some 3 /\
  nfailures (trace (ar_run (ar_run (ar_run fixture_2)))) = 1.
Proof.
  destruct (ar_three_failed_recoveries no_tmux "/workspaces/002--claude-test"
              DEFAULT_CLAUDE_OPTIONS 2 fixture_2 (ar_run fixture_2)
              (ar_run (ar_run fixture_2)) (ar_run (ar_run (ar_run fixture_2))))
    as (_ & _ & Hf & Hc & _);
    [reflexivity|vm_compute; reflexivity|vm_compute; reflexivity|vm_compute; reflexivity|].
  split; [exact Hc|]. rewrite Hf. reflexivity.
Defined.

(** C5 (counterexample).  Three failed auto-recoveries of session 2 on a
    host without [tmux]: all three calls return [False], yet the status of
    session 2 is still ['active'] in the tmux cache and in the registry;
    it is never ['recovery_failed']. *)
Lemma ar_three_failures_status_not_recovery_failed :
  fst (three_recoveries no_tmux "/workspaces/002--claude-test" DEFAULT_CLAUDE_OPTIONS 2
         fixture_2) = Ret (false, false, false) /\
  (t_status <$> tcache (snd (three_recoveries no_tmux "/workspaces/002--claude-test"
                               DEFAULT_CLAUDE_OPTIONS 2 fixture_2)) !! 2) = Some "active" /\
  (SessionManager.status <$>
     SessionManager.sessions_cache
       (registry (snd (three_recoveries no_tmux "/workspaces/002--claude-test"
                         DEFAULT_CLAUDE_OPTIONS 2 fixture_2))) !! 2) = Some "active".
Proof. vm_compute. split; [reflexivity|split; reflexivity]. Qed.

End RecoveryClaims.

(* ================================================================= *)
(** ** Registry: further properties of [session_manager.py] *)
(* ================================================================= *)

Module RegistryExtras.
Import SessionManager RegistryHarness RegistryFacts.

(** *** [_save_sessions] and [_load_sessions] on lookups *)

Lemma foldl_insert_keep (l : list SessionInfo) (d : gmap nat string) k ch :
  (forall j, j ∈ l -> session_id j = k -> channel_id j = ch) ->
  d !! k = Some ch ->
  foldl (fun d info => <[session_id info := channel_id info]> d) d l !! k = Some ch.
Proof.
  revert d. induction l as [|x l IH]; intros d Hl Hd; simpl; [done|].
  apply IH; [intros j Hj; apply Hl; by right|].
  destruct (decide (session_id x = k)) as [<-|Hne].
  - rewrite lookup_insert_eq. f_equal. apply Hl; [left|]; done.
  - by rewrite lookup_insert_ne.
Qed.

Lemma foldl_insert_in (l : list SessionInfo) (d : gmap nat string) info :
  (forall j, j ∈ l -> session_id j = session_id info -> channel_id j = channel_id info) ->
  info ∈ l ->
  foldl (fun d info => <[session_id info := channel_id info]> d) d l !! session_id info
    = Some (channel_id info).
Proof.
  revert d. induction l as [|x l IH]; intros d Hl Hin; [by apply not_elem_of_nil in Hin|].
  simpl. apply elem_of_cons in Hin as [->|Hin].
  - apply foldl_insert_keep; [intros j Hj; apply Hl; by right|].
    by rewrite lookup_insert_eq.
  - apply IH; [intros j Hj; apply Hl; by right|done].
Qed.

(** What [_save_sessions] writes for a registry whose entries are stored
    under their own ids: exactly the channels of the active entries. *)
Lemma sessions_dict_lookup (cache : gmap nat SessionInfo) k :
  (forall k' i, cache !! k' = Some i -> session_id i = k') ->
  sessions_dict cache !! k =
    match cache !! k with
    | Some i => if bool_decide (status i = "active") then Some (channel_id i) else None
    | None => None
    end.
Proof.
  intros Hid. unfold sessions_dict.
  set (l := filter _ _).
  assert (Hl : forall j, j ∈ l <-> status j = "active" /\ cache !! session_id j = Some j).
  { intros j. unfold l. rewrite list_elem_of_filter, list_elem_of_fmap. split.
    - intros [Ha [[k' j'] [-> Hin]]]. apply elem_of_map_to_list in Hin.
      simpl. rewrite (Hid _ _ Hin). done.
    - intros [Ha Hj]. split; [done|]. exists (session_id j, j).
      split; [done|]. by apply elem_of_map_to_list. }
  destruct (cache !! k) as [i|] eqn:Hk.
  - pose proof (Hid _ _ Hk) as Hik. case_bool_decide as Ha.
    + rewrite <- Hik. apply foldl_insert_in.
      * intros j Hj Hji. apply Hl in Hj as [_ Hj]. rewrite Hji, Hik, Hk in Hj. congruence.
      * apply Hl. rewrite Hik. done.
    + destruct (foldl _ ∅ l !! k) as [ch|] eqn:E; [|done].
      destruct (foldl_insert_lookup _ _ _ _ E) as [He|(j & Hj & Hjk & _)].
      { by rewrite lookup_empty in He. }
      apply Hl in Hj as [Hja Hj]. rewrite Hjk, Hk in Hj. congruence.
  - destruct (foldl _ ∅ l !! k) as [ch|] eqn:E; [|done].
    destruct (foldl_insert_lookup _ _ _ _ E) as [He|(j & Hj & Hjk & _)].
    { by rewrite lookup_empty in He. }
    apply Hl in Hj as [_ Hj]. rewrite Hjk, Hk in Hj. congruence.
Qed.

Lemma load_fold_keep (l : list (nat * string)) r k :
  ~ In k l.*1 ->
  sessions_cache (foldl load_entry r l) !! k = sessions_cache r !! k.
Proof.
  revert r. induction l as [|[k' v] l IH]; intros r Hnin; simpl; [done|].
  rewrite IH; [|intros Hin; apply Hnin; by right].
  simpl. rewrite lookup_insert_ne; [done|]. intros ->. apply Hnin. by left.
Qed.

Lemma load_fold_in (l : list (nat * string)) r k v :
  NoDup l.*1 -> In (k, v) l ->
  sessions_cache (foldl load_entry r l) !! k = Some (mkInfo k v "active").
Proof.
  revert r. induction l as [|[k' v'] l IH]; intros r Hnd Hin; [done|].
  simpl in Hnd. apply NoDup_cons in Hnd as [Hnin Hnd]. simpl.
  destruct Hin as [[= <- <-]|Hin].
  - rewrite load_fold_keep; [cbn; by rewrite lookup_insert_eq|].
    intros Hk. apply Hnin. by apply list_elem_of_In.
  - by apply IH.
Qed.

(** The cache [_load_sessions] builds: one active entry per line of the
    file, under its own id. *)
Lemma load_sessions_cache (d : gmap nat string) k :
  sessions_cache (load_sessions d) !! k =
    match d !! k with Some ch => Some (mkInfo k ch "active") | None => None end.
Proof.
  destruct (d !! k) as [ch|] eqn:Hd.
  - apply load_fold_in; [apply NoDup_fst_map_to_list|].
    apply list_elem_of_In. by apply elem_of_map_to_list.
  - by apply load_sessions_absent.
Qed.

Lemma load_fold_chan_keep (l : list (nat * string)) r c k :
  (forall k' c', In (k', c') l -> c' = c -> k' = k) ->
  channel_map r !! c = Some k ->
  channel_map (foldl load_entry r l) !! c = Some k.
Proof.
  revert r. induction l as [|[k' c'] l IH]; intros r Hl Hr; simpl; [done|].
  apply IH; [intros ? ? ?; apply Hl; by right|]. simpl.
  destruct (decide (c' = c)) as [->|Hne].
  - rewrite lookup_insert_eq. f_equal. eapply Hl; [left|]; done.
  - by rewrite lookup_insert_ne.
Qed.

Lemma load_fold_chan_absent (l : list (nat * string)) r c :
  (forall k' c', In (k', c') l -> c' <> c) ->
  channel_map r !! c = None ->
  channel_map (foldl load_entry r l) !! c = None.
Proof.
  revert r. induction l as [|[k' c'] l IH]; intros r Hl Hr; simpl; [done|].
  apply IH; [intros k0 c0 Hin; apply (Hl k0 c0); by right|]. simpl.
  rewrite lookup_insert_ne; [done|]. intros Heq. by apply (Hl k' c'); [left|].
Qed.

Lemma load_fold_chan_in (l : list (nat * string)) r c k :
  (forall k' c', In (k', c') l -> c' = c -> k' = k) -> In (k, c) l ->
  channel_map (foldl load_entry r l) !! c = Some k.
Proof.
  revert r. induction l as [|[k' c'] l IH]; intros r Hl Hin; [done|]. simpl.
  destruct Hin as [[= <- <-]|Hin].
  - apply load_fold_chan_keep; [intros ? ? ?; apply Hl; by right|].
    cbn. by rewrite lookup_insert_eq.
  - apply IH; [intros ? ? ?; apply Hl; by right|done].
Qed.

(** The channel map [_load_sessions] builds: a channel written under one
    id only is mapped to that id; a channel not in the file is unmapped. *)
Lemma load_sessions_channel_in (d : gmap nat string) c k :
  (forall k', d !! k' = Some c -> k' = k) -> d !! k = Some c ->
  channel_map (load_sessions d) !! c = Some k.
Proof.
  intros Hu Hk. apply load_fold_chan_in.
  - intros k' c' Hin ->. apply Hu. apply list_elem_of_In in Hin.
    by apply elem_of_map_to_list in Hin.
  - apply list_elem_of_In. by apply elem_of_map_to_list.
Qed.

Lemma load_sessions_channel_absent (d : gmap nat string) c :
  (forall k', d !! k' <> Some c) ->
  channel_map (load_sessions d) !! c = None.
Proof.
  intros Hn. apply load_fold_chan_absent; [|done].
  intros k' c' Hin ->. apply list_elem_of_In in Hin.
  apply elem_of_map_to_list in Hin. by apply (Hn k').
Qed.

Lemma next_session_id_pos (cache : gmap nat SessionInfo) : 1 <= next_session_id cache.
Proof. unfold next_session_id. destruct ((map_to_list cache).*1); lia. Qed.

Lemma registry_eta (r : Registry) : r = mkReg (sessions_cache r) (channel_map r).
Proof. by destruct r. Qed.

(** *** Properties *)

(** A successful [add_session(channel_id)] returns an id of at least 1, and
    both lookups find the new pair: [get_session_by_channel] gives the id
    and [get_channel_by_session] gives the channel. *)
Theorem add_session_then_lookup (c : string) env (s s' : Sys) (n : nat) :
  add_session c env s = (s', Ok n) ->
  1 <= n /\ get_session_by_channel c (reg s') = Some n /\
  get_channel_by_session n (reg s') = Some c.
Proof.
  unfold add_session. destruct (channel_map (reg s) !! c) eqn:Ec; [discriminate|].
  destruct env; cbn [save_sessions]; intros E; [injection E as <- <-|discriminate].
  pose proof (next_session_id_pos (sessions_cache (reg s))) as Hpos.
  split; [done|]. unfold get_session_by_channel, get_channel_by_session. cbn [reg sessions_cache channel_map].
  rewrite !lookup_insert_eq. cbn [status channel_id].
  replace (Nat.eqb _ 0) with false by (symmetry; apply Nat.eqb_neq; lia).
  rewrite bool_decide_eq_true_2 by done. done.
Qed.

Lemma add_session_then_lookup_witness :
  1 <= 1 /\ get_session_by_channel "chan-A" (reg (fst (add_session "chan-A" DiskOk empty_sys)))
              = Some 1.
Proof.
  destruct (add_session_then_lookup "chan-A" DiskOk empty_sys _ 1
              ltac:(vm_compute; reflexivity)) as (H1 & H2 & _).
  split; [exact H1|exact H2].
Defined.

(** Removing the session a successful [add_session] just created restores
    the registry to what it was before the add, and writes the file the
    original registry would write. *)
Theorem add_then_remove_restores (c : string) (s s1 : Sys) (n : nat) :
  add_session c DiskOk s = (s1, Ok n) ->
  remove_session n DiskOk s1 = (mkSys (reg s) (sessions_dict (sessions_cache (reg s))), true).
Proof.
  unfold add_session. destruct (channel_map (reg s) !! c) eqn:Ec; [discriminate|].
  cbn [save_sessions]. intros E. injection E as <- <-.
  unfold remove_session. cbn [reg sessions_cache channel_map disk].
  rewrite lookup_insert_eq. cbn [channel_id]. rewrite lookup_insert_eq.
  rewrite (delete_insert_id _ _ _ Ec).
  rewrite (delete_insert_id _ _ _ (next_session_id_fresh_None _)).
  cbn [save_sessions reg sessions_cache]. by rewrite <- registry_eta.
Qed.

Lemma add_then_remove_restores_witness :
  remove_session 4 DiskOk (fst (add_session "chan-X" DiskOk registry_123)) =
    (mkSys (reg registry_123) (sessions_dict (sessions_cache (reg registry_123))), true).
Proof.
  apply (add_then_remove_restores "chan-X" registry_123).
  vm_compute. reflexivity.
Defined.


(** A successful [remove_session] of a registered session: neither lookup
    finds it any more, the file no longer lists it, and every other cached
    session is unchanged. *)
Theorem remove_session_success (s : Sys) (sid : nat) (info : SessionInfo) :
  coherent (reg s) -> sessions_cache (reg s) !! sid = Some info ->
  exists s', remove_session sid DiskOk s = (s', true) /\
    get_channel_by_session sid (reg s') = None /\
    get_session_by_channel (channel_id info) (reg s') = None /\
    disk s' !! sid = None /\
    (forall k, k <> sid -> sessions_cache (reg s') !! k = sessions_cache (reg s) !! k).
Proof.
  intros [H1 H2] Hi. destruct (H1 sid info Hi) as [Hsid Hch].
  unfold remove_session. rewrite Hi, Hch. cbn [save_sessions reg sessions_cache disk].
  eexists. split; [reflexivity|]. cbn [reg sessions_cache channel_map disk].
  split; [unfold get_channel_by_session; cbn; by rewrite lookup_delete_eq|].
  split; [unfold get_session_by_channel; cbn; by rewrite lookup_delete_eq|].
  split.
  - rewrite sessions_dict_lookup; [by rewrite lookup_delete_eq|].
    intros k' i' Hk'. destruct (decide (k' = sid)) as [->|Hne].
    + by rewrite lookup_delete_eq in Hk'.
    + rewrite lookup_delete_ne in Hk' by congruence. by apply (H1 k' i').
  - intros k Hk. by rewrite lookup_delete_ne by congruence.
Qed.

Lemma remove_session_success_witness :
  coherent (reg registry_123) /\
  sessions_cache (reg registry_123) !! 2 = Some (mkInfo 2 "chan-B" "active") /\
  snd (remove_session 2 DiskOk registry_123) = true.
Proof.
  assert (Hc : coherent (reg registry_123)) by (apply coherent_run_ops, coherent_empty).
  assert (Hl : sessions_cache (reg registry_123) !! 2 = Some (mkInfo 2 "chan-B" "active"))
    by (vm_compute; reflexivity).
  split; [exact Hc|]. split; [exact Hl|].
  destruct (remove_session_success registry_123 2 _ Hc Hl) as (s' & E & _). by rewrite E.
Defined.

(** [update_session_health(id, False)] hides a registered session from both
    lookups and from [is_session_active] while keeping it cached and
    mapped; [update_session_health(id, True)] afterwards makes it visible
    again by id. *)
Theorem update_session_health_lookups (s : Sys) (sid : nat) (i : SessionInfo) :
  coherent (reg s) -> sessions_cache (reg s) !! sid = Some i ->
  get_channel_by_session sid (reg (update_session_health sid false s)) = None /\
  get_session_by_channel (channel_id i) (reg (update_session_health sid false s)) = None /\
  is_session_active sid (reg (update_session_health sid false s)) = false /\
  is_Some (sessions_cache (reg (update_session_health sid false s)) !! sid) /\
  channel_map (reg (update_session_health sid false s)) = channel_map (reg s) /\
  get_channel_by_session sid
    (reg (update_session_health sid true (update_session_health sid false s))) =
    Some (channel_id i) /\
  is_session_active sid
    (reg (update_session_health sid true (update_session_health sid false s))) = true.
Proof.
  intros [H1 _] Hi. destruct (H1 sid i Hi) as [_ Hch].
  unfold get_channel_by_session, get_session_by_channel, is_session_active,
    update_session_health; cbn [reg sessions_cache channel_map].
  rewrite !lookup_alter_eq, Hi. cbn. rewrite Hch, lookup_alter_eq, Hi. cbn.
  repeat split; try done. destruct (Nat.eqb sid 0); done.
Qed.

Lemma update_session_health_lookups_witness :
  get_channel_by_session 2 (reg (update_session_health 2 false registry_123)) = None.
Proof.
  apply (update_session_health_lookups registry_123 2 (mkInfo 2 "chan-B" "active")).
  - apply coherent_run_ops, coherent_empty.
  - vm_compute. reflexivity.
Defined.

(** Save then load: for a coherent registry whose sessions are all active,
    a successful [_save_sessions] followed by [_load_sessions] rebuilds
    exactly the same [sessions_cache] and [channel_map]. *)
Theorem save_load_roundtrip env (s s' : Sys) (u : unit) :
  coherent (reg s) ->
  (forall k i, sessions_cache (reg s) !! k = Some i -> status i = "active") ->
  save_sessions env s = (s', Ok u) ->
  load_sessions (disk s') = reg s.
Proof.
  intros [H1 H2] Hact. destruct env; cbn [save_sessions]; intros E; [|discriminate].
  injection E as <- _. cbn [disk].
  assert (Hid : forall k i, sessions_cache (reg s) !! k = Some i -> session_id i = k)
    by (intros k i Hk; apply (H1 k i Hk)).
  assert (Hd : forall k, sessions_dict (sessions_cache (reg s)) !! k =
                         channel_id <$> sessions_cache (reg s) !! k).
  { intros k. rewrite sessions_dict_lookup by done.
    destruct (sessions_cache (reg s) !! k) as [i|] eqn:Hk; [|done].
    by rewrite bool_decide_eq_true_2 by (eapply Hact; eauto). }
  rewrite (registry_eta (reg s)), (registry_eta (load_sessions _)). f_equal.
  - apply map_eq. intros k. rewrite load_sessions_cache, Hd.
    destruct (sessions_cache (reg s) !! k) as [i|] eqn:Hk; [|done]. cbn.
    rewrite <- (Hid k i Hk), <- (Hact k i Hk). by destruct i.
  - apply map_eq. intros c.
    destruct (channel_map (reg s) !! c) as [k|] eqn:Hc.
    + destruct (H2 c k Hc) as (i & Hi & Hci).
      apply load_sessions_channel_in.
      * intros k' Hk'. rewrite Hd in Hk'.
        destruct (sessions_cache (reg s) !! k') as [i'|] eqn:Hi'; [|discriminate].
        injection Hk' as Hk'. destruct (H1 k' i' Hi') as [_ Hc'].
        rewrite Hk' in Hc'. congruence.
      * rewrite Hd, Hi. cbn. by rewrite Hci.
    + apply load_sessions_channel_absent. intros k' Hk'. rewrite Hd in Hk'.
      destruct (sessions_cache (reg s) !! k') as [i'|] eqn:Hi'; [|discriminate].
      injection Hk' as Hk'. destruct (H1 k' i' Hi') as [_ Hc'].
      rewrite Hk' in Hc'. congruence.
Qed.

Lemma save_load_roundtrip_witness :
  load_sessions (disk (fst (save_sessions DiskOk registry_123))) = reg registry_123.
Proof.
  apply (save_load_roundtrip DiskOk registry_123 _ tt).
  - apply coherent_run_ops, coherent_empty.
  - change (map_Forall (fun _ i => status i = "active") (sessions_cache (reg registry_123))).
    apply (bool_decide_unpack _). vm_compute. reflexivity.
  - reflexivity.
Defined.

(** A session numbered 0 in [sessions.json] is loaded and found by id,
    and its channel is mapped to it, yet [get_session_by_channel] never
    returns it: the test [if session_id] treats id 0 as missing. *)
Theorem load_session_zero_hidden (d : gmap nat string) (c : string) :
  d !! 0 = Some c -> (forall k, d !! k = Some c -> k = 0) ->
  get_channel_by_session 0 (load_sessions d) = Some c /\
  channel_map (load_sessions d) !! c = Some 0 /\
  get_session_by_channel c (load_sessions d) = None.
Proof.
  intros H0 Hu.
  assert (Hc : channel_map (load_sessions d) !! c = Some 0)
    by (apply load_sessions_channel_in; done).
  split; [|split; [done|]].
  - unfold get_channel_by_session. rewrite load_sessions_cache, H0. done.
  - unfold get_session_by_channel. by rewrite Hc.
Qed.

Lemma load_session_zero_hidden_witness :
  get_session_by_channel "chan-0" (load_sessions {[0 := "chan-0"]}) = None.
Proof.
  apply (load_session_zero_hidden {[0 := "chan-0"]} "chan-0").
  - reflexivity.
  - intros k Hk. destruct (decide (k = 0)) as [->|Hne]; [done|].
    by rewrite lookup_singleton_ne in Hk.
Defined.

End RegistryExtras.

(* ================================================================= *)
(** ** More of [TmuxManager] and [AutoRecoverySystem] *)
(* ================================================================= *)

Module RecoveryExtras.
Import Recovery RecoveryHarness RecoveryFacts.

Section Generic.
Context {W : Type}.
Variable tmux : W -> tcmd -> run_result * W.

(** [is_claude_session_exists] in one step: one [has-session] call; a
    missing binary reads as [False] and leaves the cache alone. *)
Lemma is_exists_eq sid (s : St W) rr w' :
  tmux (mux s) (HasSession sid) = (rr, w') ->
  is_claude_session_exists tmux sid s =
  (Ret (match rr with RC 0 => true | _ => false end),
   mkSt (match rr with
         | RC 0 | NoBinary => tcache s
         | RC _ => alter (set_status "stopped") sid (tcache s)
         end) w' (EvTmux (HasSession sid) :: trace s) (history s) (counts s) (registry s)).
Proof.
  intros T. unfold is_claude_session_exists.
  cbv [try_catch run_tmux mbind M_bind modify_tcache get_state set_tcache mret M_ret].
  rewrite T. destruct rr as [[|n]|]; reflexivity.
Qed.

Lemma alter_status_twice a b sid (c : gmap nat TEntry) :
  alter (set_status a) sid (alter (set_status b) sid c) = alter (set_status a) sid c.
Proof.
  apply map_eq. intros j. destruct (decide (j = sid)) as [->|Hne].
  - rewrite !lookup_alter_eq. by destruct (c !! sid).
  - by rewrite !lookup_alter_ne by congruence.
Qed.

Lemma check_health_eq sid (s : St W) rr w' :
  tmux (mux s) (HasSession sid) = (rr, w') ->
  check_session_health tmux sid s =
  (Ret (match rr with RC 0 => true | _ => false end),
   mkSt (alter (set_status (match rr with RC 0 => "active" | _ => "error" end)) sid (tcache s))
        w' (EvTmux (HasSession sid) :: trace s) (history s) (counts s) (registry s)).
Proof.
  intros T. unfold check_session_health. cbv [try_catch mbind M_bind].
  rewrite (is_exists_eq _ _ _ _ T).
  cbv [modify_tcache get_state set_tcache mret M_ret mbind M_bind].
  destruct rr as [[|n]|]; [reflexivity| |reflexivity].
  cbn [tcache mux trace history counts registry]. by rewrite alter_status_twice.
Qed.

End Generic.

Lemma insert_alter_same (f : TEntry -> TEntry) sid x (c : gmap nat TEntry) :
  <[sid := x]> (alter f sid c) = <[sid := x]> c.
Proof.
  apply map_eq. intros j. destruct (decide (j = sid)) as [->|Hne].
  - by rewrite !lookup_insert_eq.
  - rewrite !lookup_insert_ne, lookup_alter_ne by congruence. done.
Qed.

Lemma existsb_eqb_In sid (l : list nat) : existsb (Nat.eqb sid) l = true <-> In sid l.
Proof.
  rewrite existsb_exists. split.
  - intros (x & Hx & E). apply Nat.eqb_eq in E. by subst.
  - intros H. exists sid. split; [done|apply Nat.eqb_refl].
Qed.

Lemma existsb_eqb_notin sid (l : list nat) : existsb (Nat.eqb sid) l = false <-> ~ In sid l.
Proof.
  rewrite <- existsb_eqb_In. destruct (existsb (Nat.eqb sid) l); split; congruence.
Qed.

(** [create_claude_session] against [list_mux]. *)
Lemma create_list_mux_eq sid wd opts (s : St (list nat)) :
  create_claude_session list_mux sid wd opts s =
  if existsb (Nat.eqb sid) (mux s) then
    (Ret true, mkSt (tcache s) (mux s) (EvTmux (HasSession sid) :: EvCreate sid :: trace s)
                    (history s) (counts s) (registry s))
  else
    (Ret true,
     mkSt (<[sid := mkEntry "active" (Some wd) (Some (default DEFAULT_CLAUDE_OPTIONS opts))
                            None None None]> (tcache s))
          (sid :: mux s)
          (EvTmux (NewSession sid wd (default DEFAULT_CLAUDE_OPTIONS opts)) ::
           EvTmux (HasSession sid) :: EvCreate sid :: trace s)
          (history s) (counts s) (registry s)).
Proof.
  unfold create_claude_session. cbv [emit mbind M_bind].
  destruct (existsb (Nat.eqb sid) (mux s)) eqn:Ex.
  - rewrite (is_exists_eq list_mux sid _ (RC 0) (mux s)) by (cbn; by rewrite Ex).
    reflexivity.
  - rewrite (is_exists_eq list_mux sid _ (RC 1) (mux s)) by (cbn; by rewrite Ex).
    cbv [try_catch run_tmux mbind M_bind modify_tcache get_state set_tcache mret M_ret].
    cbn [list_mux mux tcache trace history counts registry]. rewrite Ex.
    cbn [andb negb Nat.eqb tcache mux trace history counts registry]. by rewrite insert_alter_same.
Qed.

(** [kill_claude_session] against [list_mux]. *)
Lemma kill_list_mux_eq sid (s : St (list nat)) :
  kill_claude_session list_mux sid s =
  if existsb (Nat.eqb sid) (mux s) then
    (Ret true, mkSt (alter (set_status "stopped") sid (tcache s))
                    (filter (fun x => x <> sid) (mux s))
                    (EvTmux (KillSession sid) :: EvTmux (HasSession sid) :: trace s)
                    (history s) (counts s) (registry s))
  else
    (Ret true, mkSt (alter (set_status "stopped") sid (tcache s)) (mux s)
                    (EvTmux (HasSession sid) :: trace s) (history s) (counts s) (registry s)).
Proof.
  unfold kill_claude_session. cbv [mbind M_bind].
  destruct (existsb (Nat.eqb sid) (mux s)) eqn:Ex.
  - rewrite (is_exists_eq list_mux sid _ (RC 0) (mux s)) by (cbn; by rewrite Ex).
    cbv [try_catch run_tmux mbind M_bind modify_tcache get_state set_tcache mret M_ret negb].
    cbn [list_mux mux tcache trace history counts registry]. rewrite Ex. reflexivity.
  - rewrite (is_exists_eq list_mux sid _ (RC 1) (mux s)) by (cbn; by rewrite Ex).
    reflexivity.
Qed.

Lemma filter_drops_sid sid (l : list nat) :
  existsb (Nat.eqb sid) (filter (fun x => x <> sid) l) = false.
Proof.
  apply existsb_eqb_notin. intros Hf.
  apply list_elem_of_In, list_elem_of_filter in Hf as [Hf _]. done.
Qed.

(** The best-effort kill at the start of [recover_session], against
    [list_mux]: it always completes, marks the entry ["stopped"] and leaves
    no live session. *)
Lemma kill_wrapped_list_mux_eq sid (s : St (list nat)) :
  exists s1,
    try_catch (kill_claude_session list_mux sid;; mret tt) (fun _ => mret tt) s = (Ret tt, s1) /\
    tcache s1 = alter (set_status "stopped") sid (tcache s) /\
    existsb (Nat.eqb sid) (mux s1) = false.
Proof.
  cbv [try_catch mbind M_bind]. rewrite kill_list_mux_eq.
  destruct (existsb (Nat.eqb sid) (mux s)) eqn:Ex; (eexists; split; [reflexivity|]);
    cbn [tcache mux]; split; try done.
  apply filter_drops_sid.
Qed.

(* ----------------------------------------------------------------- *)
(** *** Properties *)

(** [TmuxManager.check_session_health] never raises: it returns whether
    [has-session] exited with 0, sets the cached status of that session to
    ['active'] or ['error'] accordingly, and touches no other entry. *)
Theorem tmux_check_session_health_spec {W} (tmux : W -> tcmd -> run_result * W)
    sid (s s' : St W) r rr w' :
  tmux (mux s) (HasSession sid) = (rr, w') ->
  check_session_health tmux sid s = (r, s') ->
  r = Ret (match rr with RC 0 => true | _ => false end) /\
  tcache s' !! sid =
    set_status (match rr with RC 0 => "active" | _ => "error" end) <$> tcache s !! sid /\
  (forall j, j <> sid -> tcache s' !! j = tcache s !! j) /\
  registry s' = registry s.
Proof.
  intros T E. rewrite (check_health_eq _ _ _ _ _ T) in E. injection E as <- <-.
  cbn [tcache registry]. split; [done|]. split; [by rewrite lookup_alter_eq|].
  split; [|done]. intros j Hj. by rewrite lookup_alter_ne by congruence.
Qed.

Lemma tmux_check_session_health_spec_witness :
  fst (check_session_health list_mux 2 fixture_live_2) = Ret true.
Proof.
  destruct (tmux_check_session_health_spec list_mux 2 fixture_live_2 _ _ (RC 0) [2]
              ltac:(reflexivity) (surjective_pairing _)) as [H _].
  exact H.
Defined.

(** On a host without a [tmux] binary, [create_claude_session] raises
    [FileNotFoundError]: [is_claude_session_exists] turns the missing binary
    into [False], and the [new-session] call that follows raises it past the
    [except CalledProcessError].  The cache and the registry are unchanged. *)
Theorem create_without_tmux_raises {W} (tmux : W -> tcmd -> run_result * W)
    sid wd opts (s s' : St W) r :
  (forall w c, fst (tmux w c) = NoBinary) ->
  create_claude_session tmux sid wd opts s = (r, s') ->
  r = Exc FileNotFoundError /\ tcache s' = tcache s /\ registry s' = registry s.
Proof.
  intros Hn E. unfold create_claude_session in E. cbv [emit mbind M_bind] in E.
  destruct (tmux (mux s) (HasSession sid)) as [rr w'] eqn:T.
  pose proof (Hn (mux s) (HasSession sid)) as H1. rewrite T in H1. cbn in H1. subst rr.
  rewrite (is_exists_eq tmux sid _ NoBinary w') in E by exact T.
  cbv [try_catch run_tmux mbind M_bind] in E. cbn [mux tcache] in E.
  destruct (tmux w' (NewSession sid wd (default DEFAULT_CLAUDE_OPTIONS opts))) as [rr2 w2] eqn:T2.
  pose proof (Hn w' (NewSession sid wd (default DEFAULT_CLAUDE_OPTIONS opts))) as H2.
  rewrite T2 in H2. cbn in H2. subst rr2.
  cbv [raise] in E. injection E as <- <-. done.
Qed.

Lemma create_without_tmux_raises_witness :
  fst (create_claude_session no_tmux 2 "/workspaces/002--claude-test" None fixture_2)
    = Exc FileNotFoundError.
Proof.
  destruct (create_without_tmux_raises no_tmux 2 "/workspaces/002--claude-test" None fixture_2
              _ _ ltac:(intros w c; reflexivity) (surjective_pairing _)) as [H _].
  exact H.
Defined.

(** [create_claude_session] against a working tmux server returns [True].
    If the session is already live it issues no [new-session] and leaves the
    cache alone; otherwise it starts it and replaces the cache entry by a
    fresh ['active'] one with the working directory and the options (the
    default options when none are given), dropping any earlier fields. *)
Theorem create_claude_session_list_mux sid wd opts (s s' : St (list nat)) r :
  create_claude_session list_mux sid wd opts s = (r, s') ->
  r = Ret true /\ In sid (mux s') /\ registry s' = registry s /\
  (In sid (mux s) ->
     mux s' = mux s /\ tcache s' = tcache s /\
     trace s' = EvTmux (HasSession sid) :: EvCreate sid :: trace s) /\
  (~ In sid (mux s) ->
     mux s' = sid :: mux s /\
     tcache s' = <[sid := mkEntry "active" (Some wd) (Some (default DEFAULT_CLAUDE_OPTIONS opts))
                                  None None None]> (tcache s)).
Proof.
  rewrite create_list_mux_eq. destruct (existsb (Nat.eqb sid) (mux s)) eqn:Ex;
    intros E; injection E as <- <-; cbn [tcache mux trace registry].
  - apply existsb_eqb_In in Ex. repeat split; try done.
  - apply existsb_eqb_notin in Ex. split; [done|]. split; [by left|].
    repeat split; try done.
Qed.

Lemma create_claude_session_list_mux_witness :
  fst (create_claude_session list_mux 2 "/workspaces/002--claude-test" None
         (mkSt ∅ [] [] [] ∅ (SessionManager.mkReg ∅ ∅))) = Ret true.
Proof.
  destruct (create_claude_session_list_mux 2 "/workspaces/002--claude-test" None
              (mkSt ∅ [] [] [] ∅ (SessionManager.mkReg ∅ ∅)) _ _ (surjective_pairing _))
    as [H _].
  exact H.
Defined.

(** [kill_claude_session] against a working tmux server returns [True],
    leaves the session not live, keeps every other live session, and marks a
    cached entry ['stopped'] whether or not the session was live. *)
Theorem kill_claude_session_list_mux sid (s s' : St (list nat)) r :
  kill_claude_session list_mux sid s = (r, s') ->
  r = Ret true /\ ~ In sid (mux s') /\
  (forall j, j <> sid -> In j (mux s') <-> In j (mux s)) /\
  tcache s' = alter (set_status "stopped") sid (tcache s) /\ registry s' = registry s.
Proof.
  rewrite kill_list_mux_eq. destruct (existsb (Nat.eqb sid) (mux s)) eqn:Ex;
    intros E; injection E as <- <-; cbn [tcache mux registry].
  - split; [done|]. split; [by apply existsb_eqb_notin, filter_drops_sid|].
    split; [|done]. intros j Hj. rewrite <- !list_elem_of_In, list_elem_of_filter. tauto.
  - apply existsb_eqb_notin in Ex. done.
Qed.

Lemma kill_claude_session_list_mux_witness :
  fst (kill_claude_session list_mux 2 fixture_live_2) = Ret true.
Proof.
  destruct (kill_claude_session_list_mux 2 fixture_live_2 _ _ (surjective_pairing _)) as [H _].
  exact H.
Defined.

(** [TmuxManager.recover_session] against a working tmux server, for a
    session with a cache entry and at least one retry: the first attempt
    succeeds, the session is live, and the entry is ['recovered'] with the
    working directory and options of the old entry (or their defaults),
    [recovery_attempt = 1] and [recovery_count = 1], whatever count the old
    entry held, since [create_claude_session] replaced the entry first.
    No other entry changes. *)
Theorem recover_session_list_mux sid R (s s' : St (list nat)) r e :
  1 <= R -> tcache s !! sid = Some e ->
  recover_session list_mux sid R s = (r, s') ->
  r = Ret true /\ In sid (mux s') /\
  tcache s' !! sid =
    Some (mkEntry "recovered" (Some (default "/workspaces/002--claude-test" (t_work_dir e)))
                  (Some (default DEFAULT_CLAUDE_OPTIONS (t_options e))) (Some 1) (Some 1) None) /\
  (forall j, j <> sid -> tcache s' !! j = tcache s !! j).
Proof.
  intros HR He E. destruct R as [|R]; [lia|].
  destruct (kill_wrapped_list_mux_eq sid s) as (s1 & K & Hc1 & Hx1).
  unfold recover_session in E.
  apply bind_inv in E as [(u & s1' & E1 & E2)|(ex & E1 & _)]; rewrite K in E1;
    [injection E1 as _ Hs1; subst s1'|discriminate].
  apply bind_inv in E2 as [(o & s2 & E3 & E4)|(ex & E3 & _)].
  2:{ destruct (recover_loop_bound list_mux _ _ _ _ _ _ _ E3) as [_ [o Ho]]. discriminate. }
  cbn [recover_loop] in E3. cbv [mbind M_bind try_catch] in E3.
  unfold recover_attempt in E3. cbv [get_state mbind M_bind] in E3.
  rewrite Hc1, lookup_alter_eq, He in E3. cbn [fmap option_fmap option_map] in E3.
  rewrite create_list_mux_eq, Hx1 in E3.
  rewrite (check_health_eq list_mux sid _ (RC 0) (sid :: mux s1)) in E3
    by (cbn [list_mux mux existsb]; by rewrite Nat.eqb_refl).
  cbn [tcache mux trace history counts registry] in E3.
  rewrite lookup_alter_eq, lookup_insert_eq in E3.
  cbv [set_tcache mret M_ret] in E3. cbn [fmap option_fmap option_map] in E3.
  injection E3 as <- <-. apply ret_inv in E4 as [-> ->].
  cbn [tcache mux]. split; [done|]. split; [by left|]. split.
  - by rewrite lookup_insert_eq.
  - intros j Hj.
    rewrite lookup_insert_ne, lookup_alter_ne, lookup_insert_ne, Hc1, lookup_alter_ne
      by congruence.
    done.
Qed.

Lemma recover_session_list_mux_witness :
  fst (recover_session list_mux 2 3
         (mkSt {[2 := mkEntry "error" None None (Some 4) None None]} [] [] [] ∅
               (SessionManager.mkReg ∅ ∅))) = Ret true.
Proof.
  destruct (recover_session_list_mux 2 3
              (mkSt {[2 := mkEntry "error" None None (Some 4) None None]} [] [] [] ∅
                    (SessionManager.mkReg ∅ ∅)) _ _ _
              ltac:(lia) ltac:(reflexivity) (surjective_pairing _)) as [H _].
  exact H.
Defined.

(** The [try] block of [AutoRecoverySystem.recover_session] reports success
    only on its last line, right after resetting the attempt count to 0. *)
Lemma ar_body_success {W} (tmux : W -> tcmd -> run_result * W) wd opts sid
    (s s' : St W) err :
  ar_recover_body tmux wd opts sid s = (Ret (true, err), s') ->
  err = None /\ counts s' !! sid = Some 0.
Proof.
  unfold ar_recover_body. intros E.
  apply try_inv in E as [(x & E & [= <-])|(e & s1 & _ & Eh)].
  2:{ apply ret_inv in Eh as [Hr _]. discriminate Hr. }
  apply bind_inv in E as [(ex & s1 & _ & E)|(e0 & _ & Hr)]; [|discriminate Hr].
  apply bind_inv in E as [(u & s2 & _ & E)|(e0 & _ & Hr)]; [|discriminate Hr].
  apply bind_inv in E as [(created & s3 & _ & E)|(e0 & _ & Hr)]; [|discriminate Hr].
  destruct created; [|apply ret_inv in E as [Hr _]; discriminate Hr].
  apply bind_inv in E as [(u' & s4 & _ & E)|(e0 & _ & Hr)]; [|discriminate Hr].
  apply bind_inv in E as [(h & s5 & _ & E)|(e0 & _ & Hr)]; [|discriminate Hr].
  destruct h; [|apply ret_inv in E as [Hr _]; discriminate Hr].
  apply get_inv in E.
  apply bind_inv in E as [(u'' & s6 & E6 & E)|(e0 & _ & Hr)]; [|discriminate Hr].
  injection E6 as _ <-. apply ret_inv in E as [[= <-] ->].
  cbn [counts]. by rewrite lookup_insert_eq.
Qed.

(** [AutoRecoverySystem.check_session_health] never raises: it answers
    [True] exactly when [has-session] exits with 0 and the registry lists
    the session as ['active'], and it leaves the registry alone. *)
Theorem ar_check_session_health_spec {W} (tmux : W -> tcmd -> run_result * W)
    sid (s s' : St W) r rr w' :
  tmux (mux s) (HasSession sid) = (rr, w') ->
  ar_check_session_health tmux sid s = (r, s') ->
  r = Ret (match rr with
           | RC 0 => SessionManager.is_session_active sid (registry s)
           | _ => false
           end) /\
  registry s' = registry s.
Proof.
  intros T E. unfold ar_check_session_health in E. cbv [try_catch mbind M_bind] in E.
  rewrite (is_exists_eq _ _ _ _ _ T) in E.
  destruct rr as [[|n]|]; cbv [negb get_state mret M_ret] in E; cbn [registry] in E.
  - destruct (SessionManager.is_session_active sid (registry s)); injection E as <- <-; done.
  - injection E as <- <-. done.
  - injection E as <- <-. done.
Qed.

Lemma ar_check_session_health_spec_witness :
  fst (ar_check_session_health list_mux 2
         (mkSt ∅ [2] [] [] ∅
               (SessionManager.mkReg {[2 := SessionManager.mkInfo 2 "chan-2" "active"]}
                                     {["chan-2" := 2]}))) = Ret true.
Proof.
  destruct (ar_check_session_health_spec list_mux 2
              (mkSt ∅ [2] [] [] ∅
                    (SessionManager.mkReg {[2 := SessionManager.mkInfo 2 "chan-2" "active"]}
                                          {["chan-2" := 2]})) _ _ (RC 0) [2]
              ltac:(reflexivity) (surjective_pairing _)) as [H _].
  rewrite H. vm_compute. reflexivity.
Defined.

(** Once the attempt count of a session has reached [MAX_RETRY_ATTEMPTS],
    [AutoRecoverySystem.recover_session] only sends the
    ['Max attempts exceeded'] notification and returns [False]: no tmux
    call, no history record, and the count stays as it is, so every later
    call does the same. *)
Theorem ar_recover_session_over_limit {W} (tmux : W -> tcmd -> run_result * W)
    wd opts sid (s : St W) k :
  counts s !! sid = Some k -> RecoveryStrategy.MAX_RETRY_ATTEMPTS <= k ->
  ar_recover_session tmux wd opts sid s =
  (Ret false, mkSt (tcache s) (mux s)
                   (EvNotifyFailure sid (Some "Max attempts exceeded") :: trace s)
                   (history s) (counts s) (registry s)).
Proof.
  intros Hk Hle. unfold ar_recover_session. cbv [mbind M_bind get_state].
  rewrite Hk. cbn [default]. unfold RecoveryStrategy.MAX_RETRY_ATTEMPTS in *.
  unfold id. rewrite (proj2 (Nat.ltb_lt 3 (k + 1))) by lia. reflexivity.
Qed.

Lemma ar_recover_session_over_limit_witness :
  fst (ar_recover_session no_tmux "/workspaces/002--claude-test" DEFAULT_CLAUDE_OPTIONS 2
         (mkSt ∅ tt [] [] {[2 := 3]} (SessionManager.mkReg ∅ ∅))) = Ret false.
Proof.
  rewrite (ar_recover_session_over_limit no_tmux "/workspaces/002--claude-test"
             DEFAULT_CLAUDE_OPTIONS 2 (mkSt ∅ tt [] [] {[2 := 3]} (SessionManager.mkReg ∅ ∅)) 3);
    [reflexivity|vm_compute; reflexivity|vm_compute; lia].
Defined.

(** A successful [AutoRecoverySystem.recover_session] call was within the
    attempt limit, resets the attempt count of the session to 0, appends one
    successful record without error message under the attempt number, sends
    no failure notification and leaves the registry alone. *)
Theorem ar_recover_session_success {W} (tmux : W -> tcmd -> run_result * W)
    wd opts sid (s s' : St W) :
  ar_recover_session tmux wd opts sid s = (Ret true, s') ->
  default 0 (counts s !! sid) + 1 <= RecoveryStrategy.MAX_RETRY_ATTEMPTS /\
  counts s' !! sid = Some 0 /\
  history s' = (history s ++ [mkAttempt sid (default 0 (counts s !! sid) + 1) true None])%list /\
  nfailures (trace s') = nfailures (trace s) /\
  registry s' = registry s.
Proof.
  unfold ar_recover_session. intros E. apply get_inv in E. cbv zeta in E.
  set (a := default 0 (counts s !! sid) + 1) in *.
  destruct (Nat.ltb RecoveryStrategy.MAX_RETRY_ATTEMPTS a) eqn:Hlt.
  { apply bind_inv in E as [(u & s1 & _ & E)|(e & _ & Hr)]; [|discriminate Hr].
    apply ret_inv in E as [Hr _]. discriminate Hr. }
  apply Nat.ltb_ge in Hlt. split; [exact Hlt|].
  apply bind_inv in E as [(u & s1 & E1 & E2)|(e & E1 & _)].
  2:{ exfalso. destruct (Nat.ltb 1 a); [discriminate E1|].
      apply ret_inv in E1 as [? _]. discriminate. }
  pose proof (frm_sleep_or_skip _ _ _ _ _ E1) as F1.
  apply bind_inv in E2 as [([success err] & s2 & E3 & E4)|(e & E3 & _)].
  2:{ exfalso. apply try_inv in E3 as [(x & _ & Hx)|(e' & s0 & _ & Eh)]; [discriminate|].
      apply ret_inv in Eh as [? _]. discriminate. }
  pose proof (frame_trans _ _ _ _ _ _ _ F1 (frm_ar_body _ _ _ _ _ _ _ E3)) as F2.
  destruct F2 as [_ _ _ Freg Fhist Ffail _].
  destruct success.
  2:{ exfalso. cbv beta iota in E4.
      apply bind_inv in E4 as [(u1 & s3 & _ & E4)|(e & _ & Hr)]; [|discriminate Hr].
      apply bind_inv in E4 as [(u2 & s4 & _ & E4)|(e & _ & Hr)]; [|discriminate Hr].
      apply bind_inv in E4 as [(u3 & s5 & _ & E4)|(e & _ & Hr)]; [|discriminate Hr].
      apply ret_inv in E4 as [Hr _]. discriminate Hr. }
  destruct (ar_body_success _ _ _ _ _ _ _ E3) as [-> Hc].
  cbv [mbind M_bind append_history emit notify_recovery_success mret M_ret] in E4.
  injection E4 as <-. cbn [counts history trace registry].
  split; [exact Hc|]. split; [by rewrite Fhist|]. split; [|exact Freg].
  unfold nfailures in *. cbn [List.filter is_failure_notice]. exact Ffail.
Qed.

Lemma ar_recover_session_success_witness :
  fst (ar_recover_session list_mux "/workspaces/002--claude-test" DEFAULT_CLAUDE_OPTIONS 2
         (mkSt ∅ [] [] [] ∅
               (SessionManager.mkReg {[2 := SessionManager.mkInfo 2 "chan-2" "active"]}
                                     {["chan-2" := 2]}))) = Ret true /\
  counts (snd (ar_recover_session list_mux "/workspaces/002--claude-test"
                 DEFAULT_CLAUDE_OPTIONS 2
                 (mkSt ∅ [] [] [] ∅
                       (SessionManager.mkReg {[2 := SessionManager.mkInfo 2 "chan-2" "active"]}
                                             {["chan-2" := 2]})))) !! 2 = Some 0.
Proof.
  split; [vm_compute; reflexivity|].
  apply (ar_recover_session_success list_mux "/workspaces/002--claude-test"
           DEFAULT_CLAUDE_OPTIONS 2
           (mkSt ∅ [] [] [] ∅
                 (SessionManager.mkReg {[2 := SessionManager.mkInfo 2 "chan-2" "active"]}
                                       {["chan-2" := 2]}))).
  vm_compute. reflexivity.
Defined.

End RecoveryExtras.

Module RecoveryLogExtras.
Import Recovery RecoveryLog.

(** The file written by [_save_recovery_history] holds the most recent
    [min(len, 1000)] records, in order, as a suffix of the in-memory
    history, which it keeps whole when it has at most 1000 records; loading
    that file back yields exactly those records. *)
Theorem recovery_history_save_load (h : list RecoveryAttempt) :
  load_recovery_history (Some (save_recovery_history h)) = save_recovery_history h /\
  length (save_recovery_history h) = Nat.min (length h) RECOVERY_LOG_MAX_ENTRIES /\
  (exists older, h = (older ++ save_recovery_history h)%list) /\
  (length h <= RECOVERY_LOG_MAX_ENTRIES -> save_recovery_history h = h).
Proof.
  unfold load_recovery_history, save_recovery_history, py_last, RECOVERY_LOG_MAX_ENTRIES.
  rewrite length_drop.
  split; [|split; [|split]].
  - replace (length h - (length h - 1000) - 1000) with 0 by lia. done.
  - lia.
  - exists (take (length h - 1000) h). by rewrite take_drop.
  - intros Hl. replace (length h - 1000) with 0 by lia. done.
Qed.

End RecoveryLogExtras.
